(** * genny auto_tasks: a shallow embedding of
      [src/lamplib/src/genny/tasks/auto_tasks.py]

    The Python module discovers workload YAML files, derives the Evergreen
    tasks each of them generates and selects the tasks of one invocation
    mode.  Python values that come out of the YAML parser are dynamically
    typed, so the embedding keeps them in one type [yaml] and writes out the
    run-time errors of the operators the source applies to them ([in],
    subscripting, [len], iteration, truthiness, [==]).  Exceptions are the
    [Raise] constructor of an error monad. *)

From Stdlib Require Import ZArith Ascii String.
From stdpp Require Import base gmap strings list.

Local Set Warnings "-register-all".
Local Open Scope string_scope.

(** ** Parsed YAML documents

    What [yaml.safe_load] returns: [None], booleans, integers, strings,
    lists and dicts.  Dict keys are strings here; a dict is kept as its
    entries in insertion order, keys distinct (which is what Python's dict
    iteration gives).  Floats, dates and non-string keys are left out. *)
Inductive yaml : Type :=
| YNull
| YBool (b : bool)
| YInt (n : Z)
| YStr (s : string)
| YSeq (items : list yaml)
| YMap (entries : list (string * yaml)).

(** The exceptions the module can raise, its own and the interpreter's. *)
Inductive error : Type :=
| FileNotFound (joined : string)
    (* Exception(f"File {joined} not found.") *)
| UnknownKey (key : string) (known : list string)
    (* Exception(f"Unknown key {key}. Know about {self.conts.keys()}") *)
| NeedExactlyMongodbSetup (file_path : string)
    (* ValueError("Need exactly mongodb_setup: [list] in
       PrepareEnvironmentWith for file {file_path}") *)
| InvalidOperationMode
    (* Exception("Invalid operation mode") *)
| KeyError (key : string)
| TypeError
| AttributeError
| YAMLError.

Inductive result (A : Type) : Type :=
| Ok (a : A)
| Raise (e : error).
Arguments Ok {A} a.
Arguments Raise {A} e.

#[global] Instance result_ret : MRet result := fun _ a => Ok a.
#[global] Instance result_bind : MBind result := fun _ _ f m =>
  match m with
  | Ok a => f a
  | Raise e => Raise e
  end.
#[global] Instance result_fmap : FMap result := fun _ _ f m =>
  match m with
  | Ok a => Ok (f a)
  | Raise e => Raise e
  end.

(** ** The Python operators the module applies to parsed values *)

Fixpoint dict_get (k : string) (m : list (string * yaml)) : option yaml :=
  match m with
  | [] => None
  | (k', v) :: m' => if String.eqb k k' then Some v else dict_get k m'
  end.

Definition dict_keys (m : list (string * yaml)) : list string := m.*1.

Definition dict_has (k : string) (m : list (string * yaml)) : bool :=
  match dict_get k m with
  | Some _ => true
  | None => false
  end.

(** [a == b].  [bool] is a subclass of [int] ([True == 1]); lists compare
    element by element, dicts entry by entry whatever the order. *)
Fixpoint py_eq (a b : yaml) : bool :=
  match a, b with
  | YNull, YNull => true
  | YBool x, YBool y => Bool.eqb x y
  | YBool x, YInt n | YInt n, YBool x => (Z.b2z x =? n)%Z
  | YInt x, YInt y => (x =? y)%Z
  | YStr x, YStr y => String.eqb x y
  | YSeq xs, YSeq ys =>
      (fix go (xs ys : list yaml) : bool :=
         match xs, ys with
         | [], [] => true
         | x :: xs', y :: ys' => py_eq x y && go xs' ys'
         | _, _ => false
         end) xs ys
  | YMap m1, YMap m2 =>
      (length m1 =? length m2)%nat &&
      forallb (fun kv => match dict_get (fst kv) m2 with
                         | Some v' => py_eq (snd kv) v'
                         | None => false
                         end) m1
  | _, _ => false
  end.

(** [needle in hay] on two strings: substring test. *)
Fixpoint str_contains (needle hay : string) : bool :=
  String.prefix needle hay ||
  match hay with
  | EmptyString => false
  | String _ rest => str_contains needle rest
  end.

(** [not v] is [negb (py_truthy v)]. *)
Definition py_truthy (v : yaml) : bool :=
  match v with
  | YNull => false
  | YBool b => b
  | YInt n => negb (n =? 0)%Z
  | YStr s => negb (String.eqb s "")
  | YSeq l => negb (Nat.eqb (length l) 0)
  | YMap m => negb (Nat.eqb (length m) 0)
  end.

(** [key in container] for a string [key]. *)
Definition py_contains (container : yaml) (key : string) : result bool :=
  match container with
  | YMap m => Ok (dict_has key m)
  | YSeq l => Ok (existsb (py_eq (YStr key)) l)
  | YStr s => Ok (str_contains key s)
  | YNull | YBool _ | YInt _ => Raise TypeError
  end.

(** [container[key]] for a string [key]. *)
Definition py_getitem (container : yaml) (key : string) : result yaml :=
  match container with
  | YMap m => match dict_get key m with
              | Some v => Ok v
              | None => Raise (KeyError key)
              end
  | _ => Raise TypeError
  end.

(** [len(v)]. *)
Definition py_len (v : yaml) : result nat :=
  match v with
  | YMap m => Ok (length m)
  | YSeq l => Ok (length l)
  | YStr s => Ok (String.length s)
  | YNull | YBool _ | YInt _ => Raise TypeError
  end.

Fixpoint str_chars (s : string) : list yaml :=
  match s with
  | EmptyString => []
  | String c rest => YStr (String c EmptyString) :: str_chars rest
  end.

(** The elements [for x in v] goes through. *)
Definition py_iter (v : yaml) : result (list yaml) :=
  match v with
  | YSeq l => Ok l
  | YStr s => Ok (str_chars s)
  | YMap m => Ok (YStr <$> dict_keys m)
  | YNull | YBool _ | YInt _ => Raise TypeError
  end.

(** [v.items()] and [v.keys()]: only dicts have them. *)
Definition py_items (v : yaml) : result (list (string * yaml)) :=
  match v with
  | YMap m => Ok m
  | _ => Raise AttributeError
  end.

Definition py_keys (v : yaml) : result (list string) :=
  match v with
  | YMap m => Ok (dict_keys m)
  | _ => Raise AttributeError
  end.

(** ** Character classes and [str.lower]

    Strings are sequences of ASCII characters: [[A-Z]], [[a-z]] and [[0-9]]
    are the ASCII ranges of the patterns, and [lower_char] is [str.lower] on
    one such character.  Python lowercases letters outside ASCII too, which
    [lower_char] leaves alone: a property that rests on [lower_char] being
    [str.lower] is stated for [is_ascii] input. *)

Definition is_upper (c : ascii) : bool :=
  (65 <=? nat_of_ascii c)%nat && (nat_of_ascii c <=? 90)%nat.
Definition is_lower (c : ascii) : bool :=
  (97 <=? nat_of_ascii c)%nat && (nat_of_ascii c <=? 122)%nat.
Definition is_digit (c : ascii) : bool :=
  (48 <=? nat_of_ascii c)%nat && (nat_of_ascii c <=? 57)%nat.
Definition is_newline (c : ascii) : bool := Ascii.eqb c "010"%char.

Definition is_hyphen (c : ascii) : bool := Ascii.eqb c "-".
Definition is_underscore (c : ascii) : bool := Ascii.eqb c "_".

(** The characters of a CamelCase or hyphenated base name. *)
Definition is_name_char (c : ascii) : bool :=
  is_upper c || is_lower c || is_digit c || is_hyphen c || is_underscore c.

(** The characters of a snake_case name. *)
Definition is_snake_char (c : ascii) : bool :=
  is_lower c || is_digit c || is_underscore c.

Definition not_upper (c : ascii) : bool := negb (is_upper c).
Definition not_hyphen (c : ascii) : bool := negb (is_hyphen c).

(** A name character once hyphens have become underscores. *)
Definition is_joined_char (c : ascii) : bool :=
  is_name_char c && not_hyphen c.

(** A code point below 128. *)
Definition is_ascii (c : ascii) : bool := (nat_of_ascii c <? 128)%nat.

Definition lower_char (c : ascii) : ascii :=
  if is_upper c then ascii_of_nat (nat_of_ascii c + 32) else c.

Fixpoint str_map (f : ascii -> ascii) (s : string) : string :=
  match s with
  | EmptyString => EmptyString
  | String c rest => String (f c) (str_map f rest)
  end.

Fixpoint str_forall (p : ascii -> bool) (s : string) : bool :=
  match s with
  | EmptyString => true
  | String c rest => p c && str_forall p rest
  end.

(** The characters of [s] that satisfy [p], in order. *)
Fixpoint str_filter (p : ascii -> bool) (s : string) : string :=
  match s with
  | EmptyString => EmptyString
  | String c rest =>
      if p c then String c (str_filter p rest) else str_filter p rest
  end.

(** Neither a hyphen nor an underscore. *)
Definition is_word_char (c : ascii) : bool :=
  negb (is_hyphen c || is_underscore c).

(** A character that is neither a path separator nor a dot. *)
Definition is_plain_char (c : ascii) : bool :=
  negb (Ascii.eqb c "/") && negb (Ascii.eqb c ".").

Definition is_string (v : yaml) : bool :=
  match v with
  | YStr _ => true
  | _ => false
  end.

(** ** [os.path] (posixpath) *)
Module os_path.

Definition starts_with_sep (p : string) : bool :=
  match p with
  | String "/" _ => true
  | _ => false
  end.

Fixpoint ends_with_sep (p : string) : bool :=
  match p with
  | EmptyString => false
  | String c EmptyString => Ascii.eqb c "/"
  | String _ rest => ends_with_sep rest
  end.

(** [os.path.join(a, b)]: an absolute [b] replaces [a]; a separator is
    added unless [a] is empty or already ends with one. *)
Definition join (a b : string) : string :=
  if starts_with_sep b then b
  else if String.eqb a "" || ends_with_sep a then a +:+ b
  else a +:+ "/" +:+ b.

(** [cur] is what follows the last separator seen so far. *)
Fixpoint after_last_sep (cur p : string) : string :=
  match p with
  | EmptyString => cur
  | String c rest =>
      if Ascii.eqb c "/" then after_last_sep rest rest
      else after_last_sep cur rest
  end.

(** [os.path.basename(p)] is [p[p.rfind("/") + 1:]]. *)
Definition basename (p : string) : string := after_last_sep p p.

End os_path.

(** [s.split(sep)[0]]: what precedes the first occurrence of [sep]. *)
Fixpoint split_first (sep s : string) : string :=
  if String.prefix sep s then EmptyString
  else match s with
       | EmptyString => EmptyString
       | String c rest => String c (split_first sep rest)
       end.

Fixpoint str_drop (n : nat) (s : string) : string :=
  match n, s with
  | S n', String _ rest => str_drop n' rest
  | _, _ => s
  end.

(** What follows the first occurrence of [sep] in [s], that is
    [sep.join(s.split(sep)[1:])]; [None] when [sep] does not occur and
    [s.split(sep)] has one element only. *)
Fixpoint split_rest (sep s : string) : option string :=
  if String.prefix sep s then Some (str_drop (String.length sep) s)
  else match s with
       | EmptyString => None
       | String _ rest => split_rest sep rest
       end.

(** ** The file system the reader sees

    A path string, as handed to [os.path.exists] and [open], names either
    nothing, or a file whose text parses to a document, or something that
    exists and does not parse (a directory, malformed YAML).  The operating
    system resolves a relative path against the working directory of the
    process, which need not be the [workspace_root] the reader is given. *)
Inductive file : Type :=
| Document (doc : yaml)
| Malformed.

(** ** class YamlReader *)
Module YamlReader.

Definition load (fs : gmap string file) (workspace_root path : string)
  : result yaml :=
  let joined := os_path.join workspace_root path in
  match fs !! joined with
  | None => Raise (FileNotFound joined)
  | Some (Document doc) => Ok doc
  | Some Malformed => Raise YAMLError
  end.

Definition exists_ (fs : gmap string file) (path : string) : bool :=
  bool_decide (is_Some (fs !! path)).

(** The loop of [load_set] over the files that passed the filter;
    [out[basename] = ...] overwrites an earlier entry of the same key. *)
Fixpoint load_each (fs : gmap string file) (workspace_root : string)
    (to_loads : list string) (out : gmap string yaml)
  : result (gmap string yaml) :=
  match to_loads with
  | [] => Ok out
  | to_load :: more =>
      let basename := split_first ".yml" (os_path.basename to_load) in
      doc ← load fs workspace_root to_load;
      load_each fs workspace_root more (<[basename := doc]> out)
  end.

Definition load_set (fs : gmap string file) (workspace_root : string)
    (files : list string) : result (gmap string yaml) :=
  load_each fs workspace_root (List.filter (exists_ fs) files) ∅.

End YamlReader.

(** The key [load_set] files a path under. *)
Definition load_set_key (path : string) : string :=
  split_first ".yml" (os_path.basename path).

(** ** class WorkloadLister

    [glob] and [git diff] are outside the module: the record holds what
    they answer.  [all_workload_files] is the set's iteration order;
    [modified_workload_files] raises when git exits non-zero. *)
Record WorkloadLister : Type := {
  all_workload_files : list string;
  modified_workload_files : result (gset string)
}.

(** ** class OpName *)
Inductive OpName : Type :=
| ALL_TASKS
| VARIANT_TASKS
| PATCH_TASKS.

(** ** class CLIOperation *)
Record CLIOperation : Type := {
  mode : OpName;
  variant : yaml;  (* Optional[str]; [YNull] is [None] *)
  genny_repo_root : string;
  workspace_root : string
}.

Module CLIOperation.

(** The three [if]s are tested one after the other, as in the source. *)
Definition create (mode_name : string) (fs : gmap string file)
    (genny_repo_root workspace_root : string) : result CLIOperation :=
  let mode := ALL_TASKS in
  let variant := YNull in
  let mode := if String.eqb mode_name "all_tasks" then ALL_TASKS else mode in
  '(mode, variant) ←
    (if String.eqb mode_name "patch_tasks" then
       expansions ← YamlReader.load fs workspace_root "expansions.yml";
       variant ← py_getitem expansions "build_variant";
       Ok (PATCH_TASKS, variant)
     else Ok (mode, variant));
  '(mode, variant) ←
    (if String.eqb mode_name "variant_tasks" then
       expansions ← YamlReader.load fs workspace_root "expansions.yml";
       variant ← py_getitem expansions "build_variant";
       Ok (VARIANT_TASKS, variant)
     else Ok (mode, variant));
  Ok {| mode := mode; variant := variant;
        genny_repo_root := genny_repo_root;
        workspace_root := workspace_root |}.

End CLIOperation.

(** ** class CurrentBuildInfo *)
Record CurrentBuildInfo : Type := { conts : yaml }.

Module CurrentBuildInfo.

Definition init (fs : gmap string file) (workspace_root : string)
  : result CurrentBuildInfo :=
  conts ← YamlReader.load fs workspace_root "expansions.yml";
  Ok {| conts := conts |}.

Definition has (self : CurrentBuildInfo) (key : string)
    (acceptable_values : yaml) : result bool :=
  present ← py_contains (conts self) key;
  if negb present then
    known ← py_keys (conts self);
    Raise (UnknownKey key known)
  else
    actual ← py_getitem (conts self) key;
    candidates ← py_iter acceptable_values;
    Ok (existsb (py_eq actual) candidates).

End CurrentBuildInfo.

(** ** class Workload, class GeneratedTask *)
Record Workload : Type := {
  file_path : string;
  is_modified : bool;
  requires : yaml;  (* the Requires block; [YNull] is the default [None] *)
  setups : yaml     (* PrepareEnvironmentWith:mongodb_setup; same default *)
}.

Record GeneratedTask : Type := {
  name : string;
  mongodb_setup : yaml;
  workload : Workload
}.

Module Workload.

Definition init (fs : gmap string file) (workspace_root file_path : string)
    (is_modified : bool) : result Workload :=
  conts ← YamlReader.load fs workspace_root file_path;
  has_auto_run ← py_contains conts "AutoRun";
  if negb has_auto_run then
    Ok {| file_path := file_path; is_modified := is_modified;
          requires := YNull; setups := YNull |}
  else
    auto_run ← py_getitem conts "AutoRun";
    requires ← py_getitem auto_run "Requires";
    has_prep ← py_contains auto_run "PrepareEnvironmentWith";
    if (has_prep : bool) then
      prep ← py_getitem auto_run "PrepareEnvironmentWith";
      n ← py_len prep;
      bad ← (if negb (Nat.eqb n 1) then Ok true
             else negb <$> py_contains prep "mongodb_setup");
      if (bad : bool) then Raise (NeedExactlyMongodbSetup file_path)
      else
        setups ← py_getitem prep "mongodb_setup";
        Ok {| file_path := file_path; is_modified := is_modified;
              requires := requires; setups := setups |}
    else
      Ok {| file_path := file_path; is_modified := is_modified;
            requires := requires; setups := YNull |}.

Definition file_base_name (self : Workload) : string :=
  split_first ".yml" (os_path.basename (file_path self)).

(** [self.file_path.split("src/workloads/")[1]]: the text between the first
    and the second occurrence of the separator.  [None] is the [IndexError]
    of the subscript when the separator does not occur. *)
Definition relative_path (self : Workload) : option string :=
  split_first "src/workloads/" <$> split_rest "src/workloads/" (file_path self).

(** [re.sub("(.)([A-Z][a-z]+)", r"\1_\2", s)], scanning left to right.
    [in_run] says that the previous characters were a match whose greedy
    [[a-z]+] is still being extended: those characters are consumed and
    cannot open the next match. *)
Fixpoint sub_capital_word (in_run : bool) (s : string) : string :=
  match s with
  | EmptyString => EmptyString
  | String c rest =>
      if in_run && is_lower c then String c (sub_capital_word true rest)
      else
        match rest with
        | String u (String l rest') =>
            if negb (is_newline c) && is_upper u && is_lower l
            then String c (String "_" (String u (String l
                   (sub_capital_word true rest'))))
            else String c (sub_capital_word false rest)
        | _ => String c (sub_capital_word false rest)
        end
  end.

(** [re.sub("-", "_", s)]. *)
Definition sub_hyphen (s : string) : string :=
  str_map (fun c => if Ascii.eqb c "-" then "_"%char else c) s.

(** [re.sub("([a-z0-9])([A-Z])", r"\1_\2", s)]: both characters of a
    match are consumed. *)
Fixpoint sub_lower_upper (s : string) : string :=
  match s with
  | EmptyString => EmptyString
  | String c rest =>
      match rest with
      | String u rest' =>
          if (is_lower c || is_digit c) && is_upper u
          then String c (String "_" (String u (sub_lower_upper rest')))
          else String c (sub_lower_upper rest)
      | EmptyString => String c EmptyString
      end
  end.

Definition _to_snake_case (camel_case : string) : string :=
  let s1 := sub_capital_word false camel_case in
  let s2 := sub_hyphen s1 in
  str_map lower_char (sub_lower_upper s2).

(** [re.sub] takes strings only. *)
Definition snake_of_value (v : yaml) : result string :=
  match v with
  | YStr s => Ok (_to_snake_case s)
  | _ => Raise TypeError
  end.

Definition all_tasks (self : Workload) : result (list GeneratedTask) :=
  let base := _to_snake_case (file_base_name self) in
  match setups self with
  | YNull =>
      Ok [ {| name := base; mongodb_setup := YNull; workload := self |} ]
  | declared =>
      items ← py_iter declared;
      mapM (fun setup =>
              suffix ← snake_of_value setup;
              Ok {| name := base +:+ "_" +:+ suffix;
                    mongodb_setup := setup; workload := self |})
           items
  end.

(** The [for] loop of [meets_criteria]: every pair is evaluated, [okay]
    only ever goes from [True] to [False].  The log line written after
    each check reads [build.conts.get], which cannot fail once
    [build.has] has returned, and is not part of the result. *)
Fixpoint criteria_loop (build : CurrentBuildInfo)
    (items : list (string * yaml)) (okay : bool) : result bool :=
  match items with
  | [] => Ok okay
  | (key, acceptable_values) :: more =>
      met ← CurrentBuildInfo.has build key acceptable_values;
      criteria_loop build more (if negb met then false else okay)
  end.

Definition meets_criteria (self : Workload) (build : CurrentBuildInfo)
  : result bool :=
  items ← py_items (requires self);
  criteria_loop build items true.

(** [[task for task in tasks if cond()]]: [cond] runs once per task. *)
Fixpoint filter_tasks (cond : result bool) (tasks : list GeneratedTask)
  : result (list GeneratedTask) :=
  match tasks with
  | [] => Ok []
  | task :: more =>
      keep ← cond;
      kept ← filter_tasks cond more;
      Ok (if (keep : bool) then task :: kept else kept)
  end.

Definition variant_tasks (self : Workload) (build : CurrentBuildInfo)
  : result (list GeneratedTask) :=
  if negb (py_truthy (requires self)) then Ok []
  else
    tasks ← all_tasks self;
    filter_tasks (meets_criteria self build) tasks.

End Workload.

(** ** class Repo *)
Record Repo : Type := {
  lister : WorkloadLister;
  reader : gmap string file;
  repo_workspace_root : string
}.

Module Repo.

Definition all_workloads (self : Repo) : result (list Workload) :=
  let all_files := all_workload_files (lister self) in
  modified ← modified_workload_files (lister self);
  mapM (fun fpath =>
          Workload.init (reader self) (repo_workspace_root self) fpath
            (bool_decide (fpath ∈ modified)))
       all_files.

Definition modified_workloads (self : Repo) : result (list Workload) :=
  workloads ← all_workloads self;
  Ok (List.filter is_modified workloads).

(** [[task for workload in workloads for task in f(workload)]]. *)
Definition flatten_tasks (f : Workload -> result (list GeneratedTask))
    (workloads : list Workload) : result (list GeneratedTask) :=
  per_workload ← mapM f workloads;
  Ok (mjoin per_workload).

Definition all_tasks (self : Repo) : result (list GeneratedTask) :=
  workloads ← all_workloads self;
  flatten_tasks Workload.all_tasks workloads.

Definition variant_tasks (self : Repo) (build : CurrentBuildInfo)
  : result (list GeneratedTask) :=
  workloads ← all_workloads self;
  flatten_tasks (fun workload => Workload.variant_tasks workload build)
    workloads.

Definition patch_tasks (self : Repo) : result (list GeneratedTask) :=
  workloads ← modified_workloads self;
  flatten_tasks Workload.all_tasks workloads.

(** [OpName] has three members, so the final [else] of the source, which
    raises [InvalidOperationMode], has no case here. *)
Definition tasks (self : Repo) (op : CLIOperation)
    (build : CurrentBuildInfo) : result (list GeneratedTask) :=
  match mode op with
  | ALL_TASKS => all_tasks self
  | PATCH_TASKS => patch_tasks self
  | VARIANT_TASKS => variant_tasks self build
  end.

End Repo.

(** ** main

    [main] up to the task list it hands to the writer: the build context is
    loaded first, then the operation is created, then the repository is
    asked for the tasks of that operation. *)
Definition main_tasks (mode_name : string) (fs : gmap string file)
    (lister : WorkloadLister) (genny_repo_root workspace_root : string)
  : result (list GeneratedTask) :=
  build ← CurrentBuildInfo.init fs workspace_root;
  op ← CLIOperation.create mode_name fs genny_repo_root workspace_root;
  let repo := {| lister := lister; reader := fs;
                 repo_workspace_root := workspace_root |} in
  Repo.tasks repo op build.

(** * Properties *)

#[local] Arguments String.eqb : simpl never.

(** ** Name conversion *)

Example to_snake_case_camel :
  Workload._to_snake_case "MyWorkload" = "my_workload".
Proof. reflexivity. Qed.

Example to_snake_case_acronym_hyphen :
  Workload._to_snake_case "HTTPResponse-codeV2" = "http_response_code_v2".
Proof. reflexivity. Qed.

(** The first pattern consumes "aBc" and cannot match again at "cDe"; the
    third pattern then separates "c" from "D". *)
Example to_snake_case_adjacent_words :
  Workload.sub_capital_word false "aBcDe" = "a_BcDe"
  /\ Workload._to_snake_case "aBcDe" = "a_bc_de".
Proof. split; reflexivity. Qed.

Example file_base_name_strips_directory_and_extension :
  Workload.file_base_name
    {| file_path := "/genny/src/workloads/docs/MyWorkload.yml";
       is_modified := false; requires := YNull; setups := YNull |}
  = "MyWorkload".
Proof. reflexivity. Qed.

Section SnakeCase.

Ltac by_cases_on_char c :=
  destruct c as [[] [] [] [] [] [] [] []]; vm_compute; intros;
  try reflexivity; try discriminate; try congruence.

Lemma lower_char_not_upper c : not_upper (lower_char c) = true.
Proof. by_cases_on_char c. Qed.

Lemma lower_char_fixes c : not_upper c = true -> lower_char c = c.
Proof. by_cases_on_char c. Qed.

Lemma lower_char_keeps_not_hyphen c :
  not_hyphen c = true -> not_hyphen (lower_char c) = true.
Proof. by_cases_on_char c. Qed.

Lemma lower_char_snake c :
  is_joined_char c = true -> is_snake_char (lower_char c) = true.
Proof. by_cases_on_char c. Qed.

Lemma hyphen_to_underscore_joined c :
  is_name_char c = true ->
  is_joined_char (if Ascii.eqb c "-" then "_"%char else c) = true.
Proof. by_cases_on_char c. Qed.

Lemma hyphen_to_underscore_not_hyphen c :
  not_hyphen (if Ascii.eqb c "-" then "_"%char else c) = true.
Proof. by_cases_on_char c. Qed.

Lemma hyphen_to_underscore_fixes c :
  not_hyphen c = true -> (if Ascii.eqb c "-" then "_"%char else c) = c.
Proof. by_cases_on_char c. Qed.

Lemma str_forall_cons p c s :
  str_forall p (String c s) = true <-> p c = true /\ str_forall p s = true.
Proof. simpl. apply andb_true_iff. Qed.

Lemma str_forall_map p q f s :
  (forall c, p c = true -> q (f c) = true) ->
  str_forall p s = true -> str_forall q (str_map f s) = true.
Proof.
  intros Hf. induction s as [|c s IH]; simpl; [done|].
  rewrite !andb_true_iff. intros [Hc Hs]. split; auto.
Qed.

Lemma str_forall_map_all q f s :
  (forall c, q (f c) = true) -> str_forall q (str_map f s) = true.
Proof.
  intros Hf. induction s as [|c s IH]; simpl; [done|].
  rewrite Hf. exact IH.
Qed.

Lemma str_map_fixes p f s :
  (forall c, p c = true -> f c = c) ->
  str_forall p s = true -> str_map f s = s.
Proof.
  intros Hf. induction s as [|c s IH]; simpl; [done|].
  rewrite andb_true_iff. intros [Hc Hs]. rewrite Hf, IH; done.
Qed.

Lemma sub_capital_word_cons in_run c rest :
  Workload.sub_capital_word in_run (String c rest) =
  if in_run && is_lower c
  then String c (Workload.sub_capital_word true rest)
  else match rest with
       | String u (String l rest') =>
           if negb (is_newline c) && is_upper u && is_lower l
           then String c (String "_" (String u (String l
                  (Workload.sub_capital_word true rest'))))
           else String c (Workload.sub_capital_word false rest)
       | _ => String c (Workload.sub_capital_word false rest)
       end.
Proof. by destruct rest as [|u [|l rest']]. Qed.

Lemma sub_lower_upper_cons c rest :
  Workload.sub_lower_upper (String c rest) =
  match rest with
  | String u rest' =>
      if (is_lower c || is_digit c) && is_upper u
      then String c (String "_" (String u (Workload.sub_lower_upper rest')))
      else String c (Workload.sub_lower_upper rest)
  | EmptyString => String c EmptyString
  end.
Proof. by destruct rest. Qed.

(** A string without capitals offers no match to the two CamelCase
    patterns. *)
Lemma sub_capital_word_fixes s :
  str_forall not_upper s = true ->
  forall in_run, Workload.sub_capital_word in_run s = s.
Proof.
  induction s as [|c s IH]; intros Hs in_run; [done|].
  apply str_forall_cons in Hs as [Hc Hs].
  rewrite sub_capital_word_cons.
  destruct (in_run && is_lower c); [by rewrite IH|].
  destruct s as [|u [|l s']]; cbv match; try by rewrite IH.
  apply str_forall_cons in Hs as Hu. destruct Hu as [Hu _].
  unfold not_upper in Hu. apply negb_true_iff in Hu. rewrite Hu.
  rewrite andb_false_r. cbv match. by rewrite IH.
Qed.

Lemma sub_lower_upper_fixes s :
  str_forall not_upper s = true -> Workload.sub_lower_upper s = s.
Proof.
  induction s as [|c s IH]; intros Hs; [done|].
  apply str_forall_cons in Hs as [Hc Hs].
  rewrite sub_lower_upper_cons.
  destruct s as [|u s']; [done|].
  apply str_forall_cons in Hs as Hu. destruct Hu as [Hu _].
  unfold not_upper in Hu. apply negb_true_iff in Hu. rewrite Hu.
  rewrite andb_false_r. by rewrite IH.
Qed.

(** Both substitutions only ever insert an underscore. *)
Lemma sub_capital_word_forall p :
  p "_"%char = true ->
  forall n s in_run, String.length s <= n ->
    str_forall p s = true ->
    str_forall p (Workload.sub_capital_word in_run s) = true.
Proof.
  intros Hp. induction n as [|n IH]; intros s in_run Hlen Hs.
  { destruct s; [done | simpl in Hlen; lia]. }
  destruct s as [|c s]; [done|].
  apply str_forall_cons in Hs as [Hc Hs]. simpl in Hlen.
  rewrite sub_capital_word_cons.
  destruct (in_run && is_lower c).
  { apply str_forall_cons. split; [done|]. apply IH; [lia | done]. }
  destruct s as [|u [|l s']]; cbv match;
    try (apply str_forall_cons; split; [done|]; apply IH; [lia | done]).
  destruct (negb (is_newline c) && is_upper u && is_lower l).
  - apply str_forall_cons in Hs as [Hu Hs].
    apply str_forall_cons in Hs as [Hl Hs].
    rewrite !str_forall_cons. repeat split; try done.
    apply IH; [simpl in Hlen; lia | done].
  - apply str_forall_cons. split; [done|]. apply IH; [lia | done].
Qed.

Lemma sub_lower_upper_forall p :
  p "_"%char = true ->
  forall n s, String.length s <= n ->
    str_forall p s = true ->
    str_forall p (Workload.sub_lower_upper s) = true.
Proof.
  intros Hp. induction n as [|n IH]; intros s Hlen Hs.
  { destruct s; [done | simpl in Hlen; lia]. }
  destruct s as [|c s]; [done|].
  apply str_forall_cons in Hs as [Hc Hs]. simpl in Hlen.
  rewrite sub_lower_upper_cons.
  destruct s as [|u s']; [by apply str_forall_cons|].
  destruct ((is_lower c || is_digit c) && is_upper u).
  - apply str_forall_cons in Hs as [Hu Hs].
    rewrite !str_forall_cons. repeat split; try done.
    apply IH; [simpl in Hlen; lia | done].
  - apply str_forall_cons. split; [done|]. apply IH; [lia | done].
Qed.

Lemma to_snake_case_not_upper s :
  str_forall not_upper (Workload._to_snake_case s) = true.
Proof.
  unfold Workload._to_snake_case. apply str_forall_map_all.
  exact lower_char_not_upper.
Qed.

Lemma to_snake_case_not_hyphen s :
  str_forall not_hyphen (Workload._to_snake_case s) = true.
Proof.
  unfold Workload._to_snake_case.
  apply (str_forall_map not_hyphen); [exact lower_char_keeps_not_hyphen|].
  eapply sub_lower_upper_forall; [done | reflexivity |].
  apply str_forall_map_all. exact hyphen_to_underscore_not_hyphen.
Qed.

Lemma to_snake_case_fixes s :
  str_forall not_upper s = true -> str_forall not_hyphen s = true ->
  Workload._to_snake_case s = s.
Proof.
  intros Hu Hh. unfold Workload._to_snake_case, Workload.sub_hyphen.
  rewrite (sub_capital_word_fixes s Hu).
  rewrite (str_map_fixes not_hyphen _ s hyphen_to_underscore_fixes Hh).
  rewrite (sub_lower_upper_fixes s Hu).
  exact (str_map_fixes not_upper _ s lower_char_fixes Hu).
Qed.

Lemma to_snake_case_charset s :
  str_forall is_name_char s = true ->
  str_forall is_snake_char (Workload._to_snake_case s) = true.
Proof.
  intros Hs. unfold Workload._to_snake_case.
  apply (str_forall_map is_joined_char); [exact lower_char_snake|].
  eapply sub_lower_upper_forall; [done | reflexivity |].
  apply (str_forall_map is_name_char); [exact hyphen_to_underscore_joined|].
  eapply sub_capital_word_forall; [done | reflexivity | done].
Qed.

End SnakeCase.

(** C7: on a base name made of letters, digits, hyphens and underscores,
    [_to_snake_case] returns a string of lowercase letters, digits and
    underscores only, and applying it again returns the same string. *)
Theorem to_snake_case_idempotent_snake_chars (camel_case : string) :
  str_forall is_name_char camel_case = true ->
  Workload._to_snake_case (Workload._to_snake_case camel_case)
    = Workload._to_snake_case camel_case
  /\ str_forall is_snake_char (Workload._to_snake_case camel_case) = true.
Proof.
  intros Hname. split.
  - apply to_snake_case_fixes;
      [apply to_snake_case_not_upper | apply to_snake_case_not_hyphen].
  - by apply to_snake_case_charset.
Qed.

Lemma to_snake_case_idempotent_snake_chars_witness :
  str_forall is_name_char "HTTPResponse-codeV2" = true /\
  Workload._to_snake_case (Workload._to_snake_case "HTTPResponse-codeV2")
    = Workload._to_snake_case "HTTPResponse-codeV2"
  /\ str_forall is_snake_char (Workload._to_snake_case "HTTPResponse-codeV2")
     = true.
Proof.
  split; [reflexivity|].
  apply (to_snake_case_idempotent_snake_chars "HTTPResponse-codeV2").
  reflexivity.
Defined.

(** ** Build context *)

(** C6: on a build context that is a mapping, [has] raises the error that
    names the key when the key is absent, and otherwise returns whether the
    key's value is [==] to one of the acceptable values. *)
Theorem has_raises_on_unknown_key_else_membership
    (expansions : list (string * yaml)) (key : string)
    (acceptable_values : list yaml) :
  let build := {| conts := YMap expansions |} in
  (dict_get key expansions = None ->
   CurrentBuildInfo.has build key (YSeq acceptable_values)
     = Raise (UnknownKey key (dict_keys expansions)))
  /\ (forall actual, dict_get key expansions = Some actual ->
      exists answer,
        CurrentBuildInfo.has build key (YSeq acceptable_values) = Ok answer
        /\ (answer = true <->
            exists v, v ∈ acceptable_values /\ py_eq actual v = true)).
Proof.
  intros build. unfold CurrentBuildInfo.has. simpl. unfold dict_has. split.
  - intros Habsent. by rewrite Habsent.
  - intros actual Hpresent. rewrite Hpresent. simpl.
    eexists. split; [reflexivity|].
    rewrite existsb_exists. setoid_rewrite list_elem_of_In. done.
Qed.

Lemma has_raises_on_unknown_key_else_membership_witness :
  CurrentBuildInfo.has {| conts := YMap [("build_variant", YStr "linux")] |}
    "mongodb" (YSeq [YStr "standalone"])
  = Raise (UnknownKey "mongodb" ["build_variant"]).
Proof.
  apply (proj1 (has_raises_on_unknown_key_else_membership
                  [("build_variant", YStr "linux")] "mongodb"
                  [YStr "standalone"])).
  reflexivity.
Defined.

(** ** Operation selector *)

(** C9: a mode name that is none of the three tokens reads no file and
    gives the ALL_TASKS operation without a variant. *)
Theorem create_unrecognized_mode_is_all_tasks
    (mode_name : string) (fs : gmap string file)
    (genny_repo_root workspace_root : string) :
  mode_name <> "all_tasks" ->
  mode_name <> "patch_tasks" ->
  mode_name <> "variant_tasks" ->
  CLIOperation.create mode_name fs genny_repo_root workspace_root
  = Ok {| mode := ALL_TASKS; variant := YNull;
          genny_repo_root := genny_repo_root;
          workspace_root := workspace_root |}.
Proof.
  intros Hall Hpatch Hvariant. unfold CLIOperation.create.
  apply String.eqb_neq in Hall, Hpatch, Hvariant.
  by rewrite Hall, Hpatch, Hvariant.
Qed.

Lemma create_unrecognized_mode_is_all_tasks_witness :
  CLIOperation.create "everything" ∅ "/genny" "/ws"
  = Ok {| mode := ALL_TASKS; variant := YNull;
          genny_repo_root := "/genny"; workspace_root := "/ws" |}.
Proof.
  apply (create_unrecognized_mode_is_all_tasks "everything" ∅ "/genny" "/ws");
    discriminate.
Defined.

(** ** Workload construction *)

(** C10 as the spec states it fails: [AutoRun:] with nothing after it is a
    present key whose value is [None]; it has no Requires, and the
    subscript raises [TypeError], which is no lookup error. *)
Lemma init_auto_run_none_raises_type_error :
  ~ (forall (fs : gmap string file) (workspace_root file_path : string)
       (is_modified : bool) (document : list (string * yaml))
       (auto_run : yaml),
       YamlReader.load fs workspace_root file_path = Ok (YMap document) ->
       dict_get "AutoRun" document = Some auto_run ->
       (forall block, auto_run = YMap block ->
          dict_get "Requires" block = None) ->
       exists key,
         Workload.init fs workspace_root file_path is_modified
         = Raise (KeyError key)).
Proof.
  intros Hclaim.
  assert (Hinit : exists key,
    Workload.init
      {[ "/ws/src/workloads/A.yml" :=
           Document (YMap [("AutoRun", YNull)]) ]}
      "/ws" "src/workloads/A.yml" false = Raise (KeyError key)).
  { apply (Hclaim _ _ _ _ [("AutoRun", YNull)] YNull);
      [reflexivity | reflexivity |].
    intros block Hblock. discriminate Hblock. }
  destruct Hinit as [key Hinit]. vm_compute in Hinit. discriminate Hinit.
Qed.

(** C10, amended: when the document is a mapping with an AutoRun key whose
    value has no Requires key, construction always raises, whether or not
    PrepareEnvironmentWith is there: [KeyError] for Requires when the value
    is a mapping, [TypeError] when it is anything else. *)
Theorem init_auto_run_without_requires_raises
    (fs : gmap string file) (workspace_root file_path : string)
    (is_modified : bool) (document : list (string * yaml))
    (auto_run : yaml) :
  YamlReader.load fs workspace_root file_path = Ok (YMap document) ->
  dict_get "AutoRun" document = Some auto_run ->
  (forall block, auto_run = YMap block ->
     dict_get "Requires" block = None) ->
  Workload.init fs workspace_root file_path is_modified
  = Raise match auto_run with
          | YMap _ => KeyError "Requires"
          | _ => TypeError
          end.
Proof.
  intros Hload Hauto Hreq. unfold Workload.init. rewrite Hload. simpl.
  unfold dict_has. rewrite Hauto. simpl.
  destruct auto_run as [| | | | |block]; try done.
  simpl. by rewrite (Hreq block eq_refl).
Qed.

Lemma init_auto_run_without_requires_raises_witness :
  Workload.init
    {[ "/ws/src/workloads/A.yml" :=
         Document (YMap [("AutoRun",
                          YMap [("PrepareEnvironmentWith",
                                 YMap [("mongodb_setup",
                                        YSeq [YStr "standalone"])])])]) ]}
    "/ws" "src/workloads/A.yml" false
  = Raise (KeyError "Requires").
Proof.
  refine (init_auto_run_without_requires_raises _ "/ws"
            "src/workloads/A.yml" false
            [("AutoRun",
              YMap [("PrepareEnvironmentWith",
                     YMap [("mongodb_setup", YSeq [YStr "standalone"])])])]
            (YMap [("PrepareEnvironmentWith",
                    YMap [("mongodb_setup", YSeq [YStr "standalone"])])])
            _ _ _); try reflexivity.
  intros block [= <-]. reflexivity.
Defined.

(** C2 as the spec states it fails: a PrepareEnvironmentWith block whose one
    entry [mongodb_setup] holds a string, not a list, is accepted. *)
Lemma init_accepts_setup_that_is_not_a_list :
  ~ (forall (fs : gmap string file) (workspace_root file_path : string)
       (is_modified : bool) (document auto_run prep : list (string * yaml)),
       YamlReader.load fs workspace_root file_path = Ok (YMap document) ->
       dict_get "AutoRun" document = Some (YMap auto_run) ->
       dict_get "PrepareEnvironmentWith" auto_run = Some (YMap prep) ->
       ~ (exists ids, prep = [("mongodb_setup", YSeq (YStr <$> ids))]) ->
       Workload.init fs workspace_root file_path is_modified
       = Raise (NeedExactlyMongodbSetup file_path)).
Proof.
  intros Hclaim.
  specialize (Hclaim
    {[ "/ws/src/workloads/A.yml" :=
         Document (YMap [("AutoRun",
                          YMap [("Requires", YMap []);
                                ("PrepareEnvironmentWith",
                                 YMap [("mongodb_setup",
                                        YStr "standalone")])])]) ]}
    "/ws" "src/workloads/A.yml" false _ _ _
    eq_refl eq_refl eq_refl).
  assert (Hshape : ~ (exists ids : list string,
            [("mongodb_setup", YStr "standalone")]
            = [("mongodb_setup", YSeq (YStr <$> ids))])).
  { intros [ids Hids]. discriminate Hids. }
  specialize (Hclaim Hshape). vm_compute in Hclaim. discriminate Hclaim.
Qed.

(** C2, amended: with Requires present and PrepareEnvironmentWith a mapping,
    construction raises the error that names the file unless that mapping
    is exactly one entry under [mongodb_setup]; then it succeeds and keeps
    the entry's value as the setups, whatever that value is. *)
Theorem init_prepare_environment_shape
    (fs : gmap string file) (workspace_root file_path : string)
    (is_modified : bool) (document auto_run prep : list (string * yaml))
    (requirement : yaml) :
  YamlReader.load fs workspace_root file_path = Ok (YMap document) ->
  dict_get "AutoRun" document = Some (YMap auto_run) ->
  dict_get "Requires" auto_run = Some requirement ->
  dict_get "PrepareEnvironmentWith" auto_run = Some (YMap prep) ->
  (~ (exists value, prep = [("mongodb_setup", value)]) ->
   Workload.init fs workspace_root file_path is_modified
   = Raise (NeedExactlyMongodbSetup file_path))
  /\ (forall value, prep = [("mongodb_setup", value)] ->
      Workload.init fs workspace_root file_path is_modified
      = Ok {| file_path := file_path; is_modified := is_modified;
              requires := requirement; setups := value |}).
Proof.
  intros Hload Hauto Hreq Hprep. unfold Workload.init. rewrite Hload. simpl.
  unfold dict_has. rewrite Hauto. simpl. rewrite Hreq. simpl.
  unfold dict_has. rewrite Hprep. simpl. split.
  - intros Hshape. destruct prep as [|[k v] [|second more]]; try done.
    unfold dict_has. simpl.
    destruct (String.eqb_spec "mongodb_setup" k) as [<-|Hk]; [|done].
    destruct Hshape. by exists v.
  - by intros value ->.
Qed.

Lemma init_prepare_environment_shape_witness :
  Workload.init
    {[ "/ws/src/workloads/A.yml" :=
         Document (YMap [("AutoRun",
                          YMap [("Requires", YMap []);
                                ("PrepareEnvironmentWith",
                                 YMap [("mongodb_setup", YSeq []);
                                       ("other", YSeq [])])])]) ]}
    "/ws" "src/workloads/A.yml" false
  = Raise (NeedExactlyMongodbSetup "src/workloads/A.yml").
Proof.
  refine (proj1 (init_prepare_environment_shape
    {[ "/ws/src/workloads/A.yml" :=
         Document (YMap [("AutoRun",
                          YMap [("Requires", YMap []);
                                ("PrepareEnvironmentWith",
                                 YMap [("mongodb_setup", YSeq []);
                                       ("other", YSeq [])])])]) ]}
    "/ws" "src/workloads/A.yml" false
    [("AutoRun", YMap [("Requires", YMap []);
                       ("PrepareEnvironmentWith",
                        YMap [("mongodb_setup", YSeq []);
                              ("other", YSeq [])])])]
    [("Requires", YMap []);
     ("PrepareEnvironmentWith",
      YMap [("mongodb_setup", YSeq []); ("other", YSeq [])])]
    [("mongodb_setup", YSeq []); ("other", YSeq [])]
    (YMap []) _ _ _ _) _); try reflexivity.
  intros [value Hvalue]. discriminate Hvalue.
Defined.

(** ** Tasks of one workload *)

Lemma mapM_result_ok {A B C : Type} (f : B -> result C) (h : A -> B)
    (g : A -> C) (l : list A) :
  (forall x, x ∈ l -> f (h x) = Ok (g x)) ->
  mapM f (fmap (M:=list) h l) = Ok (fmap (M:=list) g l).
Proof.
  induction l as [|x l IH]; intros Hf; [done|].
  rewrite !fmap_cons. cbn [mapM].
  rewrite (Hf x) by left.
  rewrite IH; [done|]. intros y Hy. apply Hf. by right.
Qed.





(** C5: when the setups are a list of strings, [all_tasks] gives one task
    per setup, in the list's order, named base, underscore, setup, both in
    snake case; MyWorkload with setups a and b gives my_workload_a and
    my_workload_b. *)
Theorem all_tasks_one_per_setup_in_order :
  (forall (self : Workload) (ids : list string),
     setups self = YSeq (fmap (M:=list) YStr ids) ->
     Workload.all_tasks self
     = Ok (fmap (M:=list)
             (fun id =>
                {| name := Workload._to_snake_case
                             (Workload.file_base_name self)
                           +:+ "_" +:+ Workload._to_snake_case id;
                   mongodb_setup := YStr id;
                   workload := self |}) ids))
  /\ (forall (is_modified : bool) (requirement : yaml),
        let self := {| file_path := "src/workloads/docs/MyWorkload.yml";
                       is_modified := is_modified; requires := requirement;
                       setups := YSeq [YStr "a"; YStr "b"] |} in
        Workload.all_tasks self
        = Ok [ {| name := "my_workload_a"; mongodb_setup := YStr "a";
                  workload := self |};
               {| name := "my_workload_b"; mongodb_setup := YStr "b";
                  workload := self |} ]).
Proof.
  split.
  - intros self ids Hsetups. unfold Workload.all_tasks. rewrite Hsetups.
    simpl. by apply mapM_result_ok.
  - intros is_modified requirement. reflexivity.
Qed.

Lemma all_tasks_one_per_setup_in_order_witness :
  Workload.all_tasks
    {| file_path := "src/workloads/docs/MyWorkload.yml";
       is_modified := false; requires := YNull;
       setups := YSeq [YStr "single-node"; YStr "ReplicaSet"] |}
  = Ok [ {| name := "my_workload_single_node";
            mongodb_setup := YStr "single-node";
            workload :=
              {| file_path := "src/workloads/docs/MyWorkload.yml";
                 is_modified := false; requires := YNull;
                 setups := YSeq [YStr "single-node"; YStr "ReplicaSet"] |} |};
         {| name := "my_workload_replica_set";
            mongodb_setup := YStr "ReplicaSet";
            workload :=
              {| file_path := "src/workloads/docs/MyWorkload.yml";
                 is_modified := false; requires := YNull;
                 setups := YSeq [YStr "single-node"; YStr "ReplicaSet"] |} |} ].
Proof.
  apply (proj1 all_tasks_one_per_setup_in_order
           {| file_path := "src/workloads/docs/MyWorkload.yml";
              is_modified := false; requires := YNull;
              setups := YSeq [YStr "single-node"; YStr "ReplicaSet"] |}
           ["single-node"; "ReplicaSet"]).
  reflexivity.
Defined.

(** ** Requirement filtering *)

Lemma criteria_loop_all_met build items okay :
  (forall key vals, (key, vals) ∈ items ->
     CurrentBuildInfo.has build key vals = Ok true) ->
  Workload.criteria_loop build items okay = Ok okay.
Proof.
  revert okay. induction items as [|[key vals] items IH]; intros okay Hmet;
    [done|].
  simpl. rewrite (Hmet key vals) by left. simpl.
  apply IH. intros k v Hin. apply Hmet. by right.
Qed.

Lemma criteria_loop_answers build items okay :
  (forall key vals, (key, vals) ∈ items ->
     exists met, CurrentBuildInfo.has build key vals = Ok met) ->
  okay = false \/
  (exists key vals, (key, vals) ∈ items /\
     CurrentBuildInfo.has build key vals = Ok false) ->
  Workload.criteria_loop build items okay = Ok false.
Proof.
  revert okay. induction items as [|[key vals] items IH];
    intros okay Hanswers Hunmet.
  - destruct Hunmet as [-> | (k & v & Hin & _)]; [done|].
    by apply elem_of_nil in Hin.
  - simpl. destruct (Hanswers key vals) as [met Hmet]; [left|].
    rewrite Hmet. simpl. apply IH.
    + intros k v Hin. apply Hanswers. by right.
    + destruct met; simpl; [|by left].
      destruct Hunmet as [-> | (k & v & Hin & Hkv)]; [by left|].
      apply elem_of_cons in Hin as [Heq | Hin].
      * injection Heq as -> ->. congruence.
      * right. by exists k, v.
Qed.

Lemma filter_tasks_keep_all tasks :
  Workload.filter_tasks (Ok true) tasks = Ok tasks.
Proof. induction tasks as [|t tasks IH]; [done|]. simpl. by rewrite IH. Qed.

Lemma filter_tasks_drop_all tasks :
  Workload.filter_tasks (Ok false) tasks = Ok [].
Proof. induction tasks as [|t tasks IH]; [done|]. simpl. by rewrite IH. Qed.

(** C1 as the spec states it fails: a declared but empty Requires mapping has
    every pair satisfied, and [variant_tasks] still returns no task where
    [all_tasks] returns one. *)
Lemma variant_tasks_empty_requires_schedules_nothing :
  ~ (forall (self : Workload) (build : CurrentBuildInfo)
       (rules : list (string * yaml)) (tasks : list GeneratedTask),
       requires self = YMap rules ->
       Workload.all_tasks self = Ok tasks ->
       (forall key vals, (key, vals) ∈ rules ->
          CurrentBuildInfo.has build key vals = Ok true) ->
       Workload.variant_tasks self build = Ok tasks).
Proof.
  intros Hclaim.
  specialize (Hclaim
    {| file_path := "src/workloads/docs/HelloWorld.yml"; is_modified := false;
       requires := YMap []; setups := YNull |}
    {| conts := YMap [("build_variant", YStr "linux")] |}
    [] _ eq_refl eq_refl).
  discriminate Hclaim.
  intros key vals Hin. by apply elem_of_nil in Hin.
Qed.

(** C1, amended: without requirements, or with an empty Requires mapping,
    [variant_tasks] is empty.  With a non-empty Requires mapping on which
    [has] answers for every pair: when every pair is satisfied it returns
    what [all_tasks] returns, list or error; when some pair is not, it
    returns the empty list if [all_tasks] returns and raises the error of
    [all_tasks] if that raises. *)
Theorem variant_tasks_all_or_nothing
    (self : Workload) (build : CurrentBuildInfo) :
  (requires self = YNull \/ requires self = YMap [] ->
   Workload.variant_tasks self build = Ok [])
  /\ (forall (rules : list (string * yaml)),
        requires self = YMap rules ->
        rules <> [] ->
        (forall key vals, (key, vals) ∈ rules ->
           exists met, CurrentBuildInfo.has build key vals = Ok met) ->
        ((forall key vals, (key, vals) ∈ rules ->
            CurrentBuildInfo.has build key vals = Ok true) ->
         Workload.variant_tasks self build = Workload.all_tasks self)
        /\ ((exists key vals, (key, vals) ∈ rules /\
               CurrentBuildInfo.has build key vals = Ok false) ->
            Workload.variant_tasks self build
            = match Workload.all_tasks self with
              | Ok _ => Ok []
              | Raise e => Raise e
              end)).
Proof.
  unfold Workload.variant_tasks, Workload.meets_criteria. split.
  - by intros [-> | ->].
  - intros rules Hrules Hnonempty Hanswers.
    rewrite Hrules. destruct rules as [|rule rules]; [done|].
    cbn [py_truthy length Nat.eqb negb py_items mbind result_bind].
    split.
    + intros Hmet. rewrite criteria_loop_all_met by done.
      destruct (Workload.all_tasks self) as [tasks|e]; [|done].
      apply filter_tasks_keep_all.
    + intros Hunmet. rewrite criteria_loop_answers; [|done|by right].
      destruct (Workload.all_tasks self) as [tasks|e]; [|done].
      apply filter_tasks_drop_all.
Qed.

Lemma variant_tasks_all_or_nothing_witness :
  Workload.variant_tasks
    {| file_path := "src/workloads/B.yml"; is_modified := false;
       requires := YMap [("build_variant", YSeq [YStr "linux"])];
       setups := YSeq [YStr "x"] |}
    {| conts := YMap [("build_variant", YStr "osx")] |}
  = match Workload.all_tasks
            {| file_path := "src/workloads/B.yml"; is_modified := false;
               requires := YMap [("build_variant", YSeq [YStr "linux"])];
               setups := YSeq [YStr "x"] |} with
    | Ok _ => Ok []
    | Raise e => Raise e
    end.
Proof.
  refine (proj2 (proj2 (variant_tasks_all_or_nothing
    {| file_path := "src/workloads/B.yml"; is_modified := false;
       requires := YMap [("build_variant", YSeq [YStr "linux"])];
       setups := YSeq [YStr "x"] |}
    {| conts := YMap [("build_variant", YStr "osx")] |})
    [("build_variant", YSeq [YStr "linux"])] eq_refl _ _) _).
  - discriminate.
  - intros key vals Hin. apply list_elem_of_singleton in Hin.
    injection Hin as -> ->. by exists false.
  - exists "build_variant", (YSeq [YStr "linux"]).
    split; [apply list_elem_of_singleton|]; reflexivity.
Defined.

(** ** Repository *)

Lemma mapM_result_Forall2 {A B : Type} (f : A -> result B) (l : list A)
    (ys : list B) :
  Forall2 (fun x y => f x = Ok y) l ys -> mapM f l = Ok ys.
Proof.
  induction 1 as [|x y l ys Hxy _ IH]; [done|].
  cbn [mapM]. by rewrite Hxy, IH.
Qed.

Lemma mapM_result_Forall {A B : Type} (f : A -> result B) (P : B -> Prop)
    (l : list A) (ys : list B) :
  (forall x y, f x = Ok y -> P y) -> mapM f l = Ok ys -> Forall P ys.
Proof.
  intros Hf. revert ys. induction l as [|x l IH]; intros ys Hys.
  - injection Hys as <-. constructor.
  - cbn [mapM] in Hys. destruct (f x) as [y|e] eqn:Hy; [|done].
    destruct (mapM f l) as [ys'|e]; [|done].
    injection Hys as <-. constructor; eauto.
Qed.

(** Every task [all_tasks] builds points back to its workload. *)
Lemma all_tasks_workload self tasks :
  Workload.all_tasks self = Ok tasks ->
  Forall (fun task => workload task = self) tasks.
Proof.
  unfold Workload.all_tasks. intros Htasks.
  assert (Hmap : forall items,
    mapM (fun setup =>
            suffix ← Workload.snake_of_value setup;
            Ok {| name := Workload._to_snake_case
                            (Workload.file_base_name self)
                          +:+ "_" +:+ suffix;
                  mongodb_setup := setup; workload := self |}) items
    = Ok tasks -> Forall (fun task => workload task = self) tasks).
  { intros items. apply mapM_result_Forall. intros setup task Htask.
    destruct (Workload.snake_of_value setup); [|done].
    by injection Htask as <-. }
  destruct (setups self) as [| | | s | l | m]; try done.
  - injection Htasks as <-. by repeat constructor.
  - by apply (Hmap (str_chars s)).
  - by apply (Hmap l).
  - by apply (Hmap (YStr <$> dict_keys m)).
Qed.

(** C3: [patch_tasks] is the concatenation of [all_tasks] over the modified
    workloads.  Whatever a modified workload requires, all its tasks are
    there, and every task there belongs to a modified workload. *)
Theorem patch_tasks_all_tasks_of_modified
    (self : Repo) (workloads : list Workload)
    (per_workload : list (list GeneratedTask)) :
  Repo.all_workloads self = Ok workloads ->
  Forall2 (fun candidate tasks => Workload.all_tasks candidate = Ok tasks)
    (List.filter is_modified workloads) per_workload ->
  Repo.patch_tasks self = Ok (mjoin per_workload)
  /\ (forall candidate tasks,
        candidate ∈ workloads -> is_modified candidate = true ->
        Workload.all_tasks candidate = Ok tasks ->
        forall task, task ∈ tasks -> task ∈ mjoin per_workload)
  /\ (forall task, task ∈ mjoin per_workload ->
        workload task ∈ workloads /\ is_modified (workload task) = true).
Proof.
  intros Hworkloads Hper.
  assert (Howner : forall task, task ∈ mjoin per_workload ->
            workload task ∈ List.filter is_modified workloads).
  { intros task Hin.
    apply list_elem_of_join in Hin as (tasks & Htask & Htasks).
    apply list_elem_of_lookup in Htasks as [i Hi].
    destruct (Forall2_lookup_r _ _ _ _ _ Hper Hi) as (owner & Howner & Hall).
    apply all_tasks_workload in Hall.
    rewrite Forall_forall in Hall. rewrite (Hall task Htask).
    apply list_elem_of_lookup. by exists i. }
  split; [|split].
  - unfold Repo.patch_tasks, Repo.modified_workloads, Repo.flatten_tasks.
    rewrite Hworkloads. cbn [mbind result_bind].
    by rewrite (mapM_result_Forall2 _ _ _ Hper).
  - intros candidate tasks Hin Hmodified Htasks task Htask.
    assert (Hkept : candidate ∈ List.filter is_modified workloads).
    { apply list_elem_of_In, filter_In. by rewrite <- list_elem_of_In. }
    apply list_elem_of_lookup in Hkept as [i Hi].
    destruct (Forall2_lookup_l _ _ _ _ _ Hper Hi) as (tasks' & Hi' & Htasks').
    rewrite Htasks in Htasks'. injection Htasks' as <-.
    apply list_elem_of_join. exists tasks. split; [done|].
    apply list_elem_of_lookup. by exists i.
  - intros task Hin. apply Howner in Hin.
    apply list_elem_of_In, filter_In in Hin as [Hin Hmodified].
    by rewrite list_elem_of_In.
Qed.

Lemma patch_tasks_all_tasks_of_modified_witness :
  Repo.patch_tasks
    {| lister :=
         {| all_workload_files :=
              ["/genny/src/workloads/A.yml"; "/genny/src/workloads/B.yml"];
            modified_workload_files :=
              Ok {[ "/genny/src/workloads/B.yml" ]} |};
       reader :=
         {[ "/genny/src/workloads/A.yml" := Document (YMap []);
            "/genny/src/workloads/B.yml" :=
              Document
                (YMap [("AutoRun",
                        YMap [("Requires",
                               YMap [("build_variant",
                                      YSeq [YStr "linux"])]);
                              ("PrepareEnvironmentWith",
                               YMap [("mongodb_setup",
                                      YSeq [YStr "x"])])])]) ]};
       repo_workspace_root := "/ws" |}
  = Ok [ {| name := "b_x"; mongodb_setup := YStr "x";
            workload :=
              {| file_path := "/genny/src/workloads/B.yml";
                 is_modified := true;
                 requires := YMap [("build_variant", YSeq [YStr "linux"])];
                 setups := YSeq [YStr "x"] |} |} ].
Proof.
  refine (proj1 (patch_tasks_all_tasks_of_modified _
    [ {| file_path := "/genny/src/workloads/A.yml"; is_modified := false;
         requires := YNull; setups := YNull |};
      {| file_path := "/genny/src/workloads/B.yml"; is_modified := true;
         requires := YMap [("build_variant", YSeq [YStr "linux"])];
         setups := YSeq [YStr "x"] |} ]
    [ [ {| name := "b_x"; mongodb_setup := YStr "x";
           workload :=
             {| file_path := "/genny/src/workloads/B.yml";
                is_modified := true;
                requires := YMap [("build_variant", YSeq [YStr "linux"])];
                setups := YSeq [YStr "x"] |} |} ] ]
    _ _)).
  - vm_compute. reflexivity.
  - repeat constructor.
Defined.

(** ** Config reader *)

Lemma load_missing_path_raises fs workspace_root path :
  fs !! os_path.join workspace_root path = None ->
  YamlReader.load fs workspace_root path
  = Raise (FileNotFound (os_path.join workspace_root path)).
Proof. intros Hmissing. unfold YamlReader.load. by rewrite Hmissing. Qed.

Lemma load_each_loads_all fs workspace_root to_loads :
  (forall f, f ∈ to_loads ->
     exists doc,
       fs !! os_path.join workspace_root f = Some (Document doc)) ->
  forall out, exists out',
    YamlReader.load_each fs workspace_root to_loads out = Ok out'
    /\ forall key, is_Some (out' !! key) <->
         is_Some (out !! key) \/
         exists f, f ∈ to_loads /\
           key = split_first ".yml" (os_path.basename f).
Proof.
  induction to_loads as [|f to_loads IH]; intros Hdocs out.
  - exists out. split; [done|]. intros key. split; [by left|].
    intros [Hkey | (f & Hin & _)]; [done|]. by apply elem_of_nil in Hin.
  - destruct (Hdocs f) as [doc Hdoc]; [left|].
    cbn [YamlReader.load_each]. unfold YamlReader.load at 1.
    rewrite Hdoc. cbn [mbind result_bind].
    destruct (IH (fun g Hg => Hdocs g (list_elem_of_further _ _ _ Hg))
                (<[split_first ".yml" (os_path.basename f) := doc]> out))
      as (out' & -> & Hkeys).
    exists out'. split; [done|]. intros key. rewrite Hkeys.
    rewrite lookup_insert_is_Some. split.
    + intros [[<- | [_ Hkey]] | (g & Hg & ->)].
      * right. exists f. split; [left | done].
      * by left.
      * right. exists g. split; [by right | done].
    + intros [Hkey | (g & Hg & ->)].
      * destruct (decide (split_first ".yml" (os_path.basename f) = key));
          left; [by left | by right].
      * apply elem_of_cons in Hg as [-> | Hg]; [left; by left|].
        right. by exists g.
Qed.

(** When a path exists as given exactly if it exists under the workspace
    root, [load_set] skips the missing paths and keys the documents of the
    others by base name. *)
Lemma load_set_skips_missing fs workspace_root files :
  (forall f, f ∈ files -> is_Some (fs !! f) ->
     exists doc,
       fs !! os_path.join workspace_root f = Some (Document doc)) ->
  exists out,
    YamlReader.load_set fs workspace_root files = Ok out
    /\ forall key, is_Some (out !! key) <->
         exists f, f ∈ files /\ is_Some (fs !! f) /\
           key = split_first ".yml" (os_path.basename f).
Proof.
  intros Hdocs. unfold YamlReader.load_set.
  destruct (load_each_loads_all fs workspace_root
              (List.filter (YamlReader.exists_ fs) files))
    with (out := ∅ : gmap string yaml) as (out & Hout & Hkeys).
  { intros f Hf. apply list_elem_of_In, filter_In in Hf as [Hin Hexists].
    apply bool_decide_eq_true in Hexists.
    apply Hdocs; [by apply list_elem_of_In | done]. }
  exists out. split; [done|]. intros key. rewrite Hkeys. split.
  - intros [Hkey | (f & Hf & ->)].
    + rewrite lookup_empty in Hkey. by destruct Hkey.
    + apply list_elem_of_In, filter_In in Hf as [Hin Hexists].
      apply bool_decide_eq_true in Hexists.
      exists f. by rewrite list_elem_of_In.
  - intros (f & Hin & Hexists & ->). right. exists f. split; [|done].
    apply list_elem_of_In, filter_In. split; [by apply list_elem_of_In|].
    by apply bool_decide_eq_true.
Qed.

(** C8: [load] raises the not-found error for a missing joined path, and
    [load_set] raises the same error for a path that exists as given while
    its joined path does not: the filter tests the path as given, the load
    reads the path joined to the workspace root. *)
Theorem load_set_raises_on_missing_joined_path :
  YamlReader.load
    {[ "expansions.yml" :=
         Document (YMap [("build_variant", YStr "linux")]) ]}
    "/ws" "expansions.yml"
  = Raise (FileNotFound "/ws/expansions.yml")
  /\ YamlReader.load_set
       {[ "expansions.yml" :=
            Document (YMap [("build_variant", YStr "linux")]) ]}
       "/ws" ["expansions.yml"]
     = Raise (FileNotFound "/ws/expansions.yml").
Proof. split; vm_compute; reflexivity. Qed.

(** * Further properties *)

(** ** Name conversion, on every string *)

(** X1: whatever the input, the converted name has no ASCII capital and no
    hyphen. *)
Theorem to_snake_case_no_capital_no_hyphen (camel_case : string) :
  str_forall not_upper (Workload._to_snake_case camel_case) = true
  /\ str_forall not_hyphen (Workload._to_snake_case camel_case) = true.
Proof.
  split; [apply to_snake_case_not_upper | apply to_snake_case_not_hyphen].
Qed.

(** X2: an ASCII name without capitals and without hyphens is returned as
    it is. *)
Theorem to_snake_case_keeps_snake_names (snake : string) :
  str_forall is_ascii snake = true ->
  str_forall not_upper snake = true ->
  str_forall not_hyphen snake = true ->
  Workload._to_snake_case snake = snake.
Proof. intros _. apply to_snake_case_fixes. Qed.

Lemma to_snake_case_keeps_snake_names_witness :
  Workload._to_snake_case "insert_remove.v2 (big)" = "insert_remove.v2 (big)".
Proof.
  apply (to_snake_case_keeps_snake_names "insert_remove.v2 (big)");
    reflexivity.
Defined.

Lemma str_filter_sub_capital_word p :
  p "_"%char = false ->
  forall n s in_run, String.length s <= n ->
    str_filter p (Workload.sub_capital_word in_run s) = str_filter p s.
Proof.
  intros Hp. induction n as [|n IH]; intros s in_run Hlen.
  { destruct s; [done | simpl in Hlen; lia]. }
  destruct s as [|c s]; [done|]. simpl in Hlen.
  rewrite sub_capital_word_cons.
  destruct (in_run && is_lower c).
  { cbn [str_filter]. by rewrite IH by lia. }
  destruct s as [|u [|l s']]; cbv match;
    try (cbn [str_filter]; by rewrite IH by lia).
  destruct (negb (is_newline c) && is_upper u && is_lower l).
  - cbn [str_filter]. rewrite Hp. rewrite IH; [done|]. simpl in Hlen. lia.
  - cbn [str_filter]. rewrite IH by lia. done.
Qed.

Lemma str_filter_sub_lower_upper p :
  p "_"%char = false ->
  forall n s, String.length s <= n ->
    str_filter p (Workload.sub_lower_upper s) = str_filter p s.
Proof.
  intros Hp. induction n as [|n IH]; intros s Hlen.
  { destruct s; [done | simpl in Hlen; lia]. }
  destruct s as [|c s]; [done|]. simpl in Hlen.
  rewrite sub_lower_upper_cons.
  destruct s as [|u s']; [done|].
  destruct ((is_lower c || is_digit c) && is_upper u).
  - cbn [str_filter]. rewrite Hp. rewrite IH; [done|]. simpl in Hlen. lia.
  - cbn [str_filter]. rewrite IH by lia. done.
Qed.

Lemma str_filter_sub_hyphen s :
  str_filter is_word_char (Workload.sub_hyphen s)
  = str_filter is_word_char s.
Proof.
  induction s as [|c s IH]; [done|].
  unfold Workload.sub_hyphen in *. cbn [str_map str_filter]. rewrite IH.
  assert (Hc : is_word_char (if Ascii.eqb c "-" then "_"%char else c)
               = is_word_char c
               /\ (is_word_char c = true ->
                   (if Ascii.eqb c "-" then "_"%char else c) = c)).
  { clear. destruct c as [[] [] [] [] [] [] [] []]; vm_compute; by split. }
  destruct Hc as [Hsame Hfix]. rewrite Hsame.
  destruct (is_word_char c) eqn:Hword; [by rewrite Hfix | done].
Qed.

Lemma str_filter_lower s :
  str_filter is_word_char (str_map lower_char s)
  = str_map lower_char (str_filter is_word_char s).
Proof.
  induction s as [|c s IH]; [done|].
  cbn [str_map str_filter]. rewrite IH.
  assert (Hc : is_word_char (lower_char c) = is_word_char c).
  { clear. by destruct c as [[] [] [] [] [] [] [] []]. }
  rewrite Hc. by destruct (is_word_char c).
Qed.

(** X3: on ASCII input, apart from hyphens and underscores, the converted
    name has the characters of the input, in the same order, in lower case:
    the conversion drops, adds and moves no other character. *)
Theorem to_snake_case_keeps_word_characters (camel_case : string) :
  str_forall is_ascii camel_case = true ->
  str_filter is_word_char (Workload._to_snake_case camel_case)
  = str_map lower_char (str_filter is_word_char camel_case).
Proof.
  intros _.
  unfold Workload._to_snake_case. rewrite str_filter_lower. f_equal.
  rewrite (str_filter_sub_lower_upper is_word_char eq_refl _ _ (le_n _)).
  rewrite str_filter_sub_hyphen.
  exact (str_filter_sub_capital_word is_word_char eq_refl _ _ _ (le_n _)).
Qed.

Lemma to_snake_case_keeps_word_characters_witness :
  str_filter is_word_char (Workload._to_snake_case "HTTPResponse-codeV2")
  = "httpresponsecodev2".
Proof.
  apply (to_snake_case_keeps_word_characters "HTTPResponse-codeV2").
  reflexivity.
Defined.

(** ** Paths and base names *)

Lemma str_forall_app p s t :
  str_forall p (s +:+ t) = str_forall p s && str_forall p t.
Proof.
  induction s as [|c s IH]; [done|]. simpl. by rewrite IH, andb_assoc.
Qed.

Lemma str_forall_impl (p q : ascii -> bool) s :
  (forall c, p c = true -> q c = true) ->
  str_forall p s = true -> str_forall q s = true.
Proof.
  intros Hpq. induction s as [|c s IH]; [done|]. simpl.
  rewrite !andb_true_iff. intros [Hc Hs]. auto.
Qed.

Lemma after_last_sep_no_sep cur p :
  str_forall (fun c => negb (Ascii.eqb c "/")) p = true ->
  os_path.after_last_sep cur p = cur.
Proof.
  induction p as [|c p IH]; [done|]. simpl.
  rewrite andb_true_iff, negb_true_iff. intros [-> Hp]. by apply IH.
Qed.

Lemma after_last_sep_app cur dir name :
  os_path.after_last_sep cur (dir +:+ "/" +:+ name)
  = os_path.after_last_sep name name.
Proof.
  revert cur. induction dir as [|c dir IH]; intros cur; [done|].
  simpl. destruct (Ascii.eqb c "/"); apply IH.
Qed.

Lemma basename_of_joined dir name :
  str_forall (fun c => negb (Ascii.eqb c "/")) name = true ->
  os_path.basename (dir +:+ "/" +:+ name) = name.
Proof.
  intros Hname. unfold os_path.basename.
  rewrite after_last_sep_app. by apply after_last_sep_no_sep.
Qed.

Lemma split_first_no_occurrence sep s :
  str_contains sep s = false -> split_first sep s = s.
Proof.
  induction s as [|c s IH].
  - intros _. by destruct sep.
  - cbn [str_contains split_first].
    rewrite orb_false_iff. intros [-> Hs]. by rewrite IH.
Qed.

Lemma split_first_yml_suffix name :
  str_forall is_plain_char name = true ->
  split_first ".yml" (name +:+ ".yml") = name.
Proof.
  induction name as [|c name IH]; [done|].
  intros Hname. apply str_forall_cons in Hname as [Hc Hname].
  change (split_first ".yml" (String c name +:+ ".yml"))
    with (if String.prefix ".yml" (String c (name +:+ ".yml"))
          then EmptyString
          else String c (split_first ".yml" (name +:+ ".yml"))).
  rewrite IH by done.
  assert (Hprefix : String.prefix ".yml" (String c (name +:+ ".yml"))
                    = false).
  { cbn [String.prefix].
    destruct (Ascii.ascii_dec "." c) as [<-|]; [|done].
    vm_compute in Hc. discriminate Hc. }
  by rewrite Hprefix.
Qed.

(** X4: for a file [dir/name.yml] whose [name] has no slash and no dot, the
    base name is [name]: directories and the extension are gone. *)
Theorem file_base_name_of_yml_file (self : Workload) (dir name : string) :
  file_path self = dir +:+ "/" +:+ name +:+ ".yml" ->
  str_forall is_plain_char name = true ->
  Workload.file_base_name self = name.
Proof.
  intros Hpath Hname. unfold Workload.file_base_name. rewrite Hpath.
  rewrite basename_of_joined; [by apply split_first_yml_suffix|].
  rewrite str_forall_app. apply andb_true_iff. split; [|done].
  revert Hname. apply str_forall_impl. intros c.
  unfold is_plain_char. rewrite andb_true_iff. by intros [Hc _].
Qed.

Lemma file_base_name_of_yml_file_witness :
  Workload.file_base_name
    {| file_path := "/genny/src/workloads/scale/InsertRemove.yml";
       is_modified := false; requires := YNull; setups := YNull |}
  = "InsertRemove".
Proof.
  apply (file_base_name_of_yml_file _ "/genny/src/workloads/scale"
           "InsertRemove"); reflexivity.
Defined.

(** X5: only [.yml] is split off.  When the last path component does not
    contain [.yml], the base name is that whole component, extension
    included. *)
Theorem file_base_name_without_yml (self : Workload) :
  str_contains ".yml" (os_path.basename (file_path self)) = false ->
  Workload.file_base_name self = os_path.basename (file_path self).
Proof. apply split_first_no_occurrence. Qed.

Lemma file_base_name_without_yml_witness :
  Workload.file_base_name
    {| file_path := "/genny/src/workloads/scale/InsertRemove.yaml";
       is_modified := false; requires := YNull; setups := YNull |}
  = "InsertRemove.yaml".
Proof.
  apply (file_base_name_without_yml
           {| file_path := "/genny/src/workloads/scale/InsertRemove.yaml";
              is_modified := false; requires := YNull; setups := YNull |}).
  reflexivity.
Defined.

Lemma str_app_cons (x : ascii) (a b : string) :
  String x a +:+ b = String x (a +:+ b).
Proof. done. Qed.

Lemma str_app_assoc (a b c : string) : (a +:+ b) +:+ c = a +:+ (b +:+ c).
Proof.
  induction a as [|x a IH]; [done|]. rewrite !str_app_cons. by rewrite IH.
Qed.

Lemma str_app_length (a b : string) :
  String.length (a +:+ b) = String.length a + String.length b.
Proof.
  induction a as [|x a IH]; [done|]. rewrite str_app_cons. simpl.
  by rewrite IH.
Qed.

Lemma prefix_cons a sep c s :
  String.prefix (String a sep) (String c s)
  = if Ascii.ascii_dec a c then String.prefix sep s else false.
Proof. done. Qed.

Lemma prefix_split sep s :
  String.prefix sep s = true ->
  s = sep +:+ str_drop (String.length sep) s.
Proof.
  revert s. induction sep as [|a sep IH]; intros s; [by destruct s|].
  destruct s as [|c s]; [done|]. rewrite prefix_cons.
  destruct (Ascii.ascii_dec a c) as [<-|]; [|done].
  intros Hprefix. rewrite str_app_cons. cbn [String.length str_drop].
  f_equal. by apply IH.
Qed.

Lemma prefix_app sep s : String.prefix sep (sep +:+ s) = true.
Proof.
  induction sep as [|a sep IH]; [by destruct s|].
  rewrite str_app_cons, prefix_cons. by destruct (Ascii.ascii_dec a a).
Qed.

Lemma str_drop_app sep s : str_drop (String.length sep) (sep +:+ s) = s.
Proof.
  induction sep as [|a sep IH]; [by destruct s|].
  rewrite str_app_cons. exact IH.
Qed.

(** A prefix test only looks at as many characters as the prefix has. *)
Lemma prefix_shorten sep s tail :
  String.length sep <= String.length s ->
  String.prefix sep (s +:+ tail) = String.prefix sep s.
Proof.
  revert s. induction sep as [|a sep IH]; intros s Hlen.
  - by destruct s, tail.
  - destruct s as [|c s]; [simpl in Hlen; lia|].
    simpl in Hlen. change (String c s +:+ tail) with (String c (s +:+ tail)).
    rewrite !prefix_cons. destruct (Ascii.ascii_dec a c); [|done].
    apply IH. lia.
Qed.

Lemma split_rest_here sep s :
  String.prefix sep s = true ->
  split_rest sep s = Some (str_drop (String.length sep) s).
Proof. intros Hprefix. destruct s; cbn [split_rest]; by rewrite Hprefix. Qed.

Lemma split_rest_none sep s :
  split_rest sep s = None <-> str_contains sep s = false.
Proof.
  induction s as [|c s IH]; cbn [split_rest str_contains].
  - destruct (String.prefix sep ""); by split.
  - destruct (String.prefix sep (String c s)); [by split | done].
Qed.

Lemma split_rest_some sep s rest :
  split_rest sep s = Some rest -> exists pre, s = pre +:+ sep +:+ rest.
Proof.
  induction s as [|c s IH]; cbn [split_rest].
  - destruct (String.prefix sep "") eqn:Hprefix; [|done].
    intros [= <-]. exists "". by apply prefix_split.
  - destruct (String.prefix sep (String c s)) eqn:Hprefix.
    + intros [= <-]. exists "". by apply prefix_split.
    + intros Hrest. destruct (IH Hrest) as [pre ->].
      by exists (String c pre).
Qed.

Lemma split_first_is_prefix sep s :
  exists tail, s = split_first sep s +:+ tail.
Proof.
  induction s as [|c s [tail IH]]; cbn [split_first].
  - exists "". by destruct (String.prefix sep "").
  - destruct (String.prefix sep (String c s)).
    + by exists (String c s).
    + exists tail. rewrite str_app_cons. by rewrite <- IH.
Qed.

Lemma prefix_length sep s :
  String.prefix sep s = true -> String.length sep <= String.length s.
Proof.
  intros Hprefix. rewrite (prefix_split sep s Hprefix), str_app_length. lia.
Qed.

Lemma split_first_has_no_sep sep s :
  sep <> "" -> str_contains sep (split_first sep s) = false.
Proof.
  intros Hsep. induction s as [|c s IH]; cbn [split_first].
  - destruct sep; [done|]. reflexivity.
  - destruct (String.prefix sep (String c s)) eqn:Hprefix.
    + destruct sep; [done|]. reflexivity.
    + cbn [str_contains]. rewrite IH, orb_false_r.
      destruct (String.prefix sep (String c (split_first sep s)))
        eqn:Hshort; [|done].
      destruct (split_first_is_prefix sep s) as [tail Htail].
      rewrite Htail in Hprefix.
      change (String c (split_first sep s +:+ tail))
        with (String c (split_first sep s) +:+ tail) in Hprefix.
      rewrite prefix_shorten in Hprefix by by apply prefix_length.
      congruence.
Qed.

(** X6: [relative_path] fails exactly when the path has no
    [src/workloads/] in it.  When it answers, the answer follows an
    occurrence of that separator in the path and has no separator inside. *)
Theorem relative_path_follows_separator (self : Workload) :
  (Workload.relative_path self = None <->
   str_contains "src/workloads/" (file_path self) = false)
  /\ (forall rel, Workload.relative_path self = Some rel ->
        str_contains "src/workloads/" rel = false
        /\ exists pre tail,
             file_path self = pre +:+ "src/workloads/" +:+ rel +:+ tail).
Proof.
  unfold Workload.relative_path. split.
  - rewrite <- split_rest_none.
    by destruct (split_rest "src/workloads/" (file_path self)).
  - intros rel Hrel.
    destruct (split_rest "src/workloads/" (file_path self)) as [rest|]
      eqn:Hrest; [|done].
    injection Hrel as <-. split; [by apply split_first_has_no_sep|].
    apply split_rest_some in Hrest as [pre ->].
    destruct (split_first_is_prefix "src/workloads/" rest) as [tail Htail].
    exists pre, tail. by rewrite <- Htail.
Qed.

Lemma relative_path_follows_separator_witness :
  str_contains "src/workloads/" "scale/InsertRemove.yml" = false
  /\ exists pre tail,
       "/genny/src/workloads/scale/InsertRemove.yml"
       = pre +:+ "src/workloads/" +:+ "scale/InsertRemove.yml" +:+ tail.
Proof.
  apply (proj2 (relative_path_follows_separator
                  {| file_path :=
                       "/genny/src/workloads/scale/InsertRemove.yml";
                     is_modified := false; requires := YNull;
                     setups := YNull |})).
  reflexivity.
Defined.

(** X7: for a workload file found under [root/src/workloads/], where no
    separator starts before that directory and none occurs after it,
    [relative_path] is the path below that directory. *)
Theorem relative_path_of_workload_file (self : Workload) (root rel : string) :
  file_path self = root +:+ "/src/workloads/" +:+ rel ->
  str_contains "src/workloads/" (root +:+ "/src/workloads") = false ->
  str_contains "src/workloads/" rel = false ->
  Workload.relative_path self = Some rel.
Proof.
  intros Hpath Hroot Hrel. unfold Workload.relative_path. rewrite Hpath.
  assert (Hfind : forall pre,
    str_contains "src/workloads/" (pre +:+ "src/workloads") = false ->
    split_rest "src/workloads/" (pre +:+ "src/workloads/" +:+ rel)
    = Some rel).
  { induction pre as [|c pre IH].
    { intros _. change ("" +:+ "src/workloads/" +:+ rel)
        with ("src/workloads/" +:+ rel).
      rewrite split_rest_here by apply prefix_app.
      by rewrite str_drop_app. }
    change (String c pre +:+ "src/workloads")
      with (String c (pre +:+ "src/workloads")).
    cbn [str_contains]. rewrite orb_false_iff. intros [Hhere Hlater].
    change (String c pre +:+ "src/workloads/" +:+ rel)
      with (String c (pre +:+ "src/workloads/" +:+ rel)).
    cbn [split_rest].
    assert (Hshort :
      String.prefix "src/workloads/"
        (String c (pre +:+ "src/workloads/" +:+ rel)) = false).
    { etrans; [|exact Hhere].
      replace (String c (pre +:+ "src/workloads/" +:+ rel))
        with (String c (pre +:+ "src/workloads") +:+ ("/" +:+ rel)).
      - apply prefix_shorten. cbn [String.length].
        rewrite str_app_length. simpl. lia.
      - rewrite str_app_cons, str_app_assoc. reflexivity. }
    rewrite Hshort. by apply IH. }
  replace (root +:+ "/src/workloads/" +:+ rel)
    with ((root +:+ "/") +:+ "src/workloads/" +:+ rel)
    by (rewrite str_app_assoc; reflexivity).
  rewrite Hfind.
  - cbn [fmap option_fmap option_map]. f_equal.
    by apply split_first_no_occurrence.
  - by rewrite str_app_assoc.
Qed.

Lemma relative_path_of_workload_file_witness :
  Workload.relative_path
    {| file_path := "/home/users/genny/src/workloads/scale/InsertRemove.yml";
       is_modified := false; requires := YNull; setups := YNull |}
  = Some "scale/InsertRemove.yml".
Proof.
  apply (relative_path_of_workload_file _ "/home/users/genny"
           "scale/InsertRemove.yml"); reflexivity.
Defined.

(** ** Tasks of one workload, errors and edges *)

Lemma filter_tasks_all_or_nothing cond tasks kept :
  Workload.filter_tasks cond tasks = Ok kept -> kept = [] \/ kept = tasks.
Proof.
  destruct cond as [[]|e].
  - rewrite filter_tasks_keep_all. intros [= <-]. by right.
  - rewrite filter_tasks_drop_all. intros [= <-]. by left.
  - destruct tasks; [|done]. intros [= <-]. by left.
Qed.

(** X8: [variant_tasks] never returns part of a workload's tasks: a result
    is either empty or the whole of [all_tasks]. *)
Theorem variant_tasks_never_partial
    (self : Workload) (build : CurrentBuildInfo)
    (tasks : list GeneratedTask) :
  Workload.variant_tasks self build = Ok tasks ->
  tasks = [] \/ Workload.all_tasks self = Ok tasks.
Proof.
  unfold Workload.variant_tasks.
  destruct (negb (py_truthy (requires self))); [intros [= <-]; by left|].
  destruct (Workload.all_tasks self) as [every|e]; [|done].
  cbn [mbind result_bind]. intros Hkept.
  apply filter_tasks_all_or_nothing in Hkept as [-> | ->]; [by left | by right].
Qed.

Lemma variant_tasks_never_partial_witness :
  [ {| name := "b_x"; mongodb_setup := YStr "x";
       workload :=
         {| file_path := "src/workloads/B.yml"; is_modified := false;
            requires := YMap [("build_variant", YSeq [YStr "linux"])];
            setups := YSeq [YStr "x"] |} |} ] = []
  \/ Workload.all_tasks
       {| file_path := "src/workloads/B.yml"; is_modified := false;
          requires := YMap [("build_variant", YSeq [YStr "linux"])];
          setups := YSeq [YStr "x"] |}
     = Ok [ {| name := "b_x"; mongodb_setup := YStr "x";
               workload :=
                 {| file_path := "src/workloads/B.yml"; is_modified := false;
                    requires := YMap [("build_variant", YSeq [YStr "linux"])];
                    setups := YSeq [YStr "x"] |} |} ].
Proof.
  apply (variant_tasks_never_partial _
           {| conts := YMap [("build_variant", YStr "linux")] |}).
  reflexivity.
Defined.

Lemma criteria_loop_raises build before key vals after okay e :
  (forall k v, (k, v) ∈ before ->
     exists met, CurrentBuildInfo.has build k v = Ok met) ->
  CurrentBuildInfo.has build key vals = Raise e ->
  Workload.criteria_loop build (before ++ (key, vals) :: after) okay
  = Raise e.
Proof.
  revert okay. induction before as [|[k v] before IH]; intros okay Hanswers He.
  - simpl. by rewrite He.
  - simpl. destruct (Hanswers k v) as [met ->]; [left|]. simpl.
    apply IH; [|done]. intros k' v' Hin. apply Hanswers. by right.
Qed.

(** X9: when [has] raises on one requirement pair and answers on the pairs
    before it, a workload that has a task raises that same error from
    [variant_tasks], whether or not an earlier pair was already unmet. *)
Theorem variant_tasks_raises_what_has_raises
    (self : Workload) (build : CurrentBuildInfo)
    (before after : list (string * yaml)) (key : string) (vals : yaml)
    (e : error) (first : GeneratedTask) (others : list GeneratedTask) :
  requires self = YMap (before ++ (key, vals) :: after) ->
  (forall k v, (k, v) ∈ before ->
     exists met, CurrentBuildInfo.has build k v = Ok met) ->
  CurrentBuildInfo.has build key vals = Raise e ->
  Workload.all_tasks self = Ok (first :: others) ->
  Workload.variant_tasks self build = Raise e.
Proof.
  intros Hrequires Hanswers He Htasks.
  unfold Workload.variant_tasks, Workload.meets_criteria.
  rewrite Hrequires, Htasks.
  replace (py_truthy (YMap (before ++ (key, vals) :: after))) with true
    by by destruct before.
  cbn [negb py_items mbind result_bind Workload.filter_tasks].
  by rewrite (criteria_loop_raises build before key vals after true e).
Qed.

Lemma variant_tasks_raises_what_has_raises_witness :
  Workload.variant_tasks
    {| file_path := "src/workloads/B.yml"; is_modified := false;
       requires := YMap [("build_variant", YSeq [YStr "linux"]);
                         ("mongodb", YSeq [YStr "standalone"])];
       setups := YNull |}
    {| conts := YMap [("build_variant", YStr "osx")] |}
  = Raise (UnknownKey "mongodb" ["build_variant"]).
Proof.
  refine (variant_tasks_raises_what_has_raises _ _
            [("build_variant", YSeq [YStr "linux"])] []
            "mongodb" (YSeq [YStr "standalone"]) _
            {| name := "b"; mongodb_setup := YNull;
               workload :=
                 {| file_path := "src/workloads/B.yml"; is_modified := false;
                    requires :=
                      YMap [("build_variant", YSeq [YStr "linux"]);
                            ("mongodb", YSeq [YStr "standalone"])];
                    setups := YNull |} |} [] _ _ _ _); try reflexivity.
  intros k v Hin. apply list_elem_of_singleton in Hin.
  injection Hin as -> ->. by exists false.
Defined.

(** X10: a workload whose setups are the empty list has no task at all, and
    [variant_tasks] is then empty without any requirement being
    evaluated. *)
Theorem empty_setups_no_task (self : Workload) :
  setups self = YSeq [] ->
  Workload.all_tasks self = Ok []
  /\ forall build, Workload.variant_tasks self build = Ok [].
Proof.
  intros Hsetups.
  assert (Hall : Workload.all_tasks self = Ok []).
  { unfold Workload.all_tasks. by rewrite Hsetups. }
  split; [done|]. intros build. unfold Workload.variant_tasks.
  rewrite Hall. by destruct (negb (py_truthy (requires self))).
Qed.

Lemma empty_setups_no_task_witness :
  Workload.all_tasks
    {| file_path := "src/workloads/B.yml"; is_modified := true;
       requires := YMap [("no_such_key", YSeq [YStr "x"])];
       setups := YSeq [] |} = Ok []
  /\ forall build,
       Workload.variant_tasks
         {| file_path := "src/workloads/B.yml"; is_modified := true;
            requires := YMap [("no_such_key", YSeq [YStr "x"])];
            setups := YSeq [] |} build = Ok [].
Proof.
  apply (empty_setups_no_task
           {| file_path := "src/workloads/B.yml"; is_modified := true;
              requires := YMap [("no_such_key", YSeq [YStr "x"])];
              setups := YSeq [] |}).
  reflexivity.
Defined.

Lemma mapM_setup_not_a_string {B : Type} (build_task : yaml -> string -> B)
    (items : list yaml) (item : yaml) :
  item ∈ items ->
  is_string item = false ->
  mapM (fun setup =>
          suffix ← Workload.snake_of_value setup;
          Ok (build_task setup suffix)) items
  = Raise TypeError.
Proof.
  intros Hin Hitem.
  induction items as [|head items IH]; [by apply elem_of_nil in Hin|].
  cbn [mapM]. apply elem_of_cons in Hin as [<- | Hin].
  - by destruct item.
  - rewrite (IH Hin). by destruct head.
Qed.

(** X11: when the setups are a list with an element that is not a string,
    [all_tasks] raises [TypeError]. *)
Theorem all_tasks_setup_not_a_string_raises
    (self : Workload) (items : list yaml) (item : yaml) :
  setups self = YSeq items ->
  item ∈ items ->
  is_string item = false ->
  Workload.all_tasks self = Raise TypeError.
Proof.
  intros Hsetups Hin Hitem. unfold Workload.all_tasks. rewrite Hsetups.
  cbn [py_iter mbind result_bind].
  by apply (mapM_setup_not_a_string _ items item).
Qed.

Lemma all_tasks_setup_not_a_string_raises_witness :
  Workload.all_tasks
    {| file_path := "src/workloads/B.yml"; is_modified := false;
       requires := YNull; setups := YSeq [YStr "standalone"; YInt 3] |}
  = Raise TypeError.
Proof.
  apply (all_tasks_setup_not_a_string_raises _
           [YStr "standalone"; YInt 3] (YInt 3)); [reflexivity | | reflexivity].
  apply list_elem_of_In. right. by left.
Defined.

(** ** Build context, errors and strings *)

(** X12: on a build context that is not a mapping, [has] raises for every
    key and every list of acceptable values; it never answers. *)
Theorem has_raises_on_non_mapping
    (build : CurrentBuildInfo) (key : string) (acceptable_values : yaml) :
  (forall expansions, conts build <> YMap expansions) ->
  exists e, CurrentBuildInfo.has build key acceptable_values = Raise e.
Proof.
  intros Hshape. unfold CurrentBuildInfo.has.
  destruct (conts build) as [| | | s | l | m]; try by eexists.
  - cbn [py_contains mbind result_bind].
    destruct (str_contains key s); by eexists.
  - cbn [py_contains mbind result_bind].
    destruct (existsb (py_eq (YStr key)) l); by eexists.
  - by destruct (Hshape m).
Qed.

Lemma has_raises_on_non_mapping_witness :
  exists e,
    CurrentBuildInfo.has {| conts := YSeq [YStr "build_variant"] |}
      "build_variant" (YSeq [YStr "linux"]) = Raise e.
Proof.
  apply (has_raises_on_non_mapping
           {| conts := YSeq [YStr "build_variant"] |}).
  intros expansions. discriminate.
Defined.

(** X13: when the value of the key and the acceptable values are all
    strings, [has] answers whether the value is one of them. *)
Theorem has_on_strings
    (expansions : list (string * yaml)) (key actual : string)
    (ids : list string) :
  dict_get key expansions = Some (YStr actual) ->
  CurrentBuildInfo.has {| conts := YMap expansions |} key
    (YSeq (fmap (M:=list) YStr ids))
  = Ok (bool_decide (actual ∈ ids)).
Proof.
  intros Hactual. unfold CurrentBuildInfo.has. simpl. unfold dict_has.
  rewrite Hactual. simpl. f_equal.
  induction ids as [|id ids IH]; [done|].
  cbn [fmap list_fmap existsb py_eq]. rewrite IH.
  destruct (String.eqb_spec actual id) as [<- | Hne].
  - symmetry. apply bool_decide_eq_true. left.
  - simpl. apply bool_decide_ext. rewrite elem_of_cons.
    split; [by right | by intros [Heq | Hin]].
Qed.

Lemma has_on_strings_witness :
  CurrentBuildInfo.has
    {| conts := YMap [("build_variant", YStr "linux");
                      ("mongodb", YStr "replica")] |}
    "mongodb" (YSeq (fmap (M:=list) YStr ["standalone"; "replica"]))
  = Ok (bool_decide ("replica" ∈ ["standalone"; "replica"])).
Proof.
  apply (has_on_strings
           [("build_variant", YStr "linux"); ("mongodb", YStr "replica")]
           "mongodb" "replica" ["standalone"; "replica"]).
  reflexivity.
Defined.

(** ** Workload construction, the other paths *)

(** X14: a document whose AutoRun mapping has Requires and no
    PrepareEnvironmentWith gives a workload with that requirement and no
    setups, hence with the single task named after the file. *)
Theorem init_auto_run_without_prepare
    (fs : gmap string file) (workspace_root file_path : string)
    (is_modified : bool) (document auto_run : list (string * yaml))
    (requirement : yaml) :
  YamlReader.load fs workspace_root file_path = Ok (YMap document) ->
  dict_get "AutoRun" document = Some (YMap auto_run) ->
  dict_get "Requires" auto_run = Some requirement ->
  dict_get "PrepareEnvironmentWith" auto_run = None ->
  let self := {| file_path := file_path; is_modified := is_modified;
                 requires := requirement; setups := YNull |} in
  Workload.init fs workspace_root file_path is_modified = Ok self
  /\ Workload.all_tasks self
     = Ok [ {| name := Workload._to_snake_case (Workload.file_base_name self);
               mongodb_setup := YNull; workload := self |} ].
Proof.
  intros Hload Hauto Hreq Hprep self. split; [|done].
  unfold Workload.init. rewrite Hload. simpl.
  unfold dict_has. rewrite Hauto. simpl. rewrite Hreq. simpl.
  unfold dict_has. by rewrite Hprep.
Qed.

Lemma init_auto_run_without_prepare_witness :
  let self := {| file_path := "/genny/src/workloads/docs/HelloWorld.yml";
                 is_modified := true;
                 requires := YMap [("mongodb", YSeq [YStr "standalone"])];
                 setups := YNull |} in
  Workload.init
    {[ "/genny/src/workloads/docs/HelloWorld.yml" :=
         Document
           (YMap [("AutoRun",
                   YMap [("Requires",
                          YMap [("mongodb", YSeq [YStr "standalone"])])])])
    ]}
    "/ws" "/genny/src/workloads/docs/HelloWorld.yml" true = Ok self
  /\ Workload.all_tasks self
     = Ok [ {| name := Workload._to_snake_case (Workload.file_base_name self);
               mongodb_setup := YNull; workload := self |} ].
Proof.
  refine (init_auto_run_without_prepare _ "/ws"
            "/genny/src/workloads/docs/HelloWorld.yml" true
            [("AutoRun",
              YMap [("Requires",
                     YMap [("mongodb", YSeq [YStr "standalone"])])])]
            [("Requires", YMap [("mongodb", YSeq [YStr "standalone"])])]
            (YMap [("mongodb", YSeq [YStr "standalone"])]) _ _ _ _);
    reflexivity.
Defined.

(** X15: an absolute workload path is read as it is; the workspace root the
    reader is given plays no part in the construction. *)
Theorem init_absolute_path_ignores_workspace_root
    (fs : gmap string file) (workspace_root other_root file_path : string)
    (is_modified : bool) :
  os_path.starts_with_sep file_path = true ->
  Workload.init fs workspace_root file_path is_modified
  = Workload.init fs other_root file_path is_modified.
Proof.
  intros Habsolute.
  unfold Workload.init, YamlReader.load, os_path.join.
  by rewrite Habsolute.
Qed.

Lemma init_absolute_path_ignores_workspace_root_witness :
  Workload.init ∅ "/ws" "/genny/src/workloads/A.yml" false
  = Workload.init ∅ "/tmp/elsewhere" "/genny/src/workloads/A.yml" false.
Proof.
  apply (init_absolute_path_ignores_workspace_root ∅ "/ws" "/tmp/elsewhere"
           "/genny/src/workloads/A.yml" false).
  reflexivity.
Defined.

Lemma init_keeps_arguments fs workspace_root path flag self :
  Workload.init fs workspace_root path flag = Ok self ->
  file_path self = path /\ is_modified self = flag.
Proof.
  unfold Workload.init.
  destruct (YamlReader.load fs workspace_root path) as [document|]; [|done].
  cbn [mbind result_bind].
  destruct (py_contains document "AutoRun") as [[]|]; [| |done];
    cbn [mbind result_bind negb]; [|by intros [= <-]].
  destruct (py_getitem document "AutoRun") as [auto_run|]; [|done].
  cbn [mbind result_bind].
  destruct (py_getitem auto_run "Requires") as [requirement|]; [|done].
  cbn [mbind result_bind].
  destruct (py_contains auto_run "PrepareEnvironmentWith") as [[]|];
    [| |done]; cbn [mbind result_bind]; [|by intros [= <-]].
  destruct (py_getitem auto_run "PrepareEnvironmentWith") as [prep|];
    [|done].
  cbn [mbind result_bind].
  destruct (py_len prep) as [n|]; [|done]. cbn [mbind result_bind].
  destruct (if negb (n =? 1)%nat then Ok true
            else negb <$> py_contains prep "mongodb_setup") as [[]|];
    [done| |done].
  cbn [mbind result_bind].
  destruct (py_getitem prep "mongodb_setup") as [declared|]; [|done].
  by intros [= <-].
Qed.

(** ** Repository, shape and failures *)

Lemma mapM_result_Forall2_inv {A B : Type} (f : A -> result B) (l : list A)
    (ys : list B) :
  mapM f l = Ok ys -> Forall2 (fun x y => f x = Ok y) l ys.
Proof.
  revert ys. induction l as [|x l IH]; intros ys Hys.
  - injection Hys as <-. constructor.
  - cbn [mapM] in Hys. destruct (f x) as [y|] eqn:Hy; [|done].
    destruct (mapM f l) as [ys'|]; [|done].
    injection Hys as <-. constructor; [done|]. by apply IH.
Qed.

Lemma mapM_result_raises {A B : Type} (f : A -> result B) (l : list A)
    (x : A) (e : error) :
  x ∈ l -> f x = Raise e -> exists e', mapM f l = Raise e'.
Proof.
  intros Hin Hx. induction l as [|head l IH]; [by apply elem_of_nil in Hin|].
  cbn [mapM]. destruct (f head) as [y|e0] eqn:Hhead; [|by exists e0].
  apply elem_of_cons in Hin as [-> | Hin]; [congruence|].
  destruct (IH Hin) as [e' ->]. by exists e'.
Qed.

(** X16: [all_workloads] gives one workload per listed file, in the
    listing's order, each carrying its file's path and flagged modified
    exactly when the path is in the modified set. *)
Theorem all_workloads_one_per_file
    (self : Repo) (modified : gset string) (workloads : list Workload) :
  modified_workload_files (lister self) = Ok modified ->
  Repo.all_workloads self = Ok workloads ->
  fmap (M:=list) file_path workloads = all_workload_files (lister self)
  /\ Forall (fun candidate =>
               is_modified candidate
               = bool_decide (file_path candidate ∈ modified)) workloads.
Proof.
  intros Hmodified. unfold Repo.all_workloads. rewrite Hmodified.
  cbn [mbind result_bind]. intros Hworkloads.
  apply mapM_result_Forall2_inv in Hworkloads.
  induction Hworkloads as [|path candidate paths workloads Hinit _ [IH1 IH2]];
    [by split|].
  apply init_keeps_arguments in Hinit as [Hpath Hflag].
  split.
  - rewrite fmap_cons. by rewrite Hpath, IH1.
  - constructor; [by rewrite Hflag, Hpath | done].
Qed.

Lemma all_workloads_one_per_file_witness :
  fmap (M:=list) file_path
    [ {| file_path := "/genny/src/workloads/A.yml"; is_modified := false;
         requires := YNull; setups := YNull |};
      {| file_path := "/genny/src/workloads/B.yml"; is_modified := true;
         requires := YNull; setups := YNull |} ]
  = ["/genny/src/workloads/A.yml"; "/genny/src/workloads/B.yml"]
  /\ Forall (fun candidate =>
               is_modified candidate
               = bool_decide (file_path candidate
                              ∈ ({[ "/genny/src/workloads/B.yml" ]}
                                 : gset string)))
       [ {| file_path := "/genny/src/workloads/A.yml"; is_modified := false;
            requires := YNull; setups := YNull |};
         {| file_path := "/genny/src/workloads/B.yml"; is_modified := true;
            requires := YNull; setups := YNull |} ].
Proof.
  apply (all_workloads_one_per_file
    {| lister :=
         {| all_workload_files :=
              ["/genny/src/workloads/A.yml"; "/genny/src/workloads/B.yml"];
            modified_workload_files :=
              Ok {[ "/genny/src/workloads/B.yml" ]} |};
       reader :=
         {[ "/genny/src/workloads/A.yml" := Document (YMap []);
            "/genny/src/workloads/B.yml" := Document (YMap []) ]};
       repo_workspace_root := "/ws" |}).
  - reflexivity.
  - vm_compute. reflexivity.
Defined.

(** X17: one workload file that cannot be constructed stops every task
    listing, [patch_tasks] included even when that file is not modified;
    so does a failure of the modified-files query, [all_tasks] included. *)
Theorem one_bad_workload_stops_every_listing (self : Repo) :
  (forall e, modified_workload_files (lister self) = Raise e ->
     Repo.all_tasks self = Raise e /\ Repo.patch_tasks self = Raise e
     /\ forall build, Repo.variant_tasks self build = Raise e)
  /\ (forall modified path e,
        modified_workload_files (lister self) = Ok modified ->
        path ∈ all_workload_files (lister self) ->
        Workload.init (reader self) (repo_workspace_root self) path
          (bool_decide (path ∈ modified)) = Raise e ->
        exists e',
          Repo.all_tasks self = Raise e' /\ Repo.patch_tasks self = Raise e'
          /\ forall build, Repo.variant_tasks self build = Raise e').
Proof.
  unfold Repo.all_tasks, Repo.patch_tasks, Repo.variant_tasks,
    Repo.modified_workloads, Repo.all_workloads.
  split.
  - intros e ->. by repeat split.
  - intros modified path e -> Hin Hbad. cbn [mbind result_bind].
    destruct (mapM_result_raises
                (fun fpath =>
                   Workload.init (reader self) (repo_workspace_root self)
                     fpath (bool_decide (fpath ∈ modified)))
                _ path e Hin Hbad) as [e' ->].
    exists e'. by repeat split.
Qed.

Lemma one_bad_workload_stops_every_listing_witness :
  exists e',
    Repo.all_tasks
      {| lister :=
           {| all_workload_files :=
                ["/genny/src/workloads/A.yml"; "/genny/src/workloads/B.yml"];
              modified_workload_files :=
                Ok {[ "/genny/src/workloads/A.yml" ]} |};
         reader :=
           {[ "/genny/src/workloads/A.yml" := Document (YMap []);
              "/genny/src/workloads/B.yml" := Malformed ]};
         repo_workspace_root := "/ws" |} = Raise e'
    /\ Repo.patch_tasks
         {| lister :=
              {| all_workload_files :=
                   ["/genny/src/workloads/A.yml";
                    "/genny/src/workloads/B.yml"];
                 modified_workload_files :=
                   Ok {[ "/genny/src/workloads/A.yml" ]} |};
            reader :=
              {[ "/genny/src/workloads/A.yml" := Document (YMap []);
                 "/genny/src/workloads/B.yml" := Malformed ]};
            repo_workspace_root := "/ws" |} = Raise e'
    /\ forall build,
         Repo.variant_tasks
           {| lister :=
                {| all_workload_files :=
                     ["/genny/src/workloads/A.yml";
                      "/genny/src/workloads/B.yml"];
                   modified_workload_files :=
                     Ok {[ "/genny/src/workloads/A.yml" ]} |};
              reader :=
                {[ "/genny/src/workloads/A.yml" := Document (YMap []);
                   "/genny/src/workloads/B.yml" := Malformed ]};
              repo_workspace_root := "/ws" |} build = Raise e'.
Proof.
  refine (proj2 (one_bad_workload_stops_every_listing _)
            {[ "/genny/src/workloads/A.yml" ]}
            "/genny/src/workloads/B.yml" YAMLError _ _ _).
  - reflexivity.
  - apply list_elem_of_In. right. by left.
  - vm_compute. reflexivity.
Defined.

(** ** Repository, how the listings relate *)

Lemma mapM_filter_sublist {A B : Type} (f : A -> result (list B))
    (keep : A -> bool) (l : list A) (per : list (list B)) :
  mapM f l = Ok per ->
  exists part,
    mapM f (List.filter keep l) = Ok part
    /\ mjoin part `sublist_of` mjoin per.
Proof.
  revert per. induction l as [|x l IH]; intros per Hper.
  - injection Hper as <-. by exists [].
  - cbn [mapM] in Hper. destruct (f x) as [y|] eqn:Hy; [|done].
    destruct (mapM f l) as [ys|]; [|done]. injection Hper as <-.
    destruct (IH ys eq_refl) as (part & Hpart & Hsub).
    cbn [List.filter]. destruct (keep x).
    + exists (y :: part). cbn [mapM]. rewrite Hy, Hpart. split; [done|].
      by apply sublist_app.
    + exists part. split; [done|]. by apply sublist_inserts_l.
Qed.

Lemma mapM_pointwise_sublist {A B : Type} (f g : A -> result (list B))
    (l : list A) (whole part : list (list B)) :
  (forall x a v, f x = Ok a -> g x = Ok v -> v `sublist_of` a) ->
  mapM f l = Ok whole -> mapM g l = Ok part ->
  mjoin part `sublist_of` mjoin whole.
Proof.
  intros Hfg. revert whole part.
  induction l as [|x l IH]; intros whole part Hwhole Hpart.
  - injection Hwhole as <-. by injection Hpart as <-.
  - cbn [mapM] in Hwhole, Hpart.
    destruct (f x) as [a|] eqn:Ha; [|done].
    destruct (mapM f l) as [whole'|]; [|done].
    destruct (g x) as [v|] eqn:Hv; [|done].
    destruct (mapM g l) as [part'|]; [|done].
    injection Hwhole as <-. injection Hpart as <-.
    apply sublist_app; [by eapply Hfg | by apply IH].
Qed.

Lemma variant_tasks_sublist self build every chosen :
  Workload.all_tasks self = Ok every ->
  Workload.variant_tasks self build = Ok chosen ->
  chosen `sublist_of` every.
Proof.
  unfold Workload.variant_tasks. intros ->.
  destruct (negb (py_truthy (requires self)));
    [intros [= <-]; apply sublist_nil_l|].
  cbn [mbind result_bind]. intros Hkept.
  apply filter_tasks_all_or_nothing in Hkept as [-> | ->];
    [apply sublist_nil_l | done].
Qed.

(** X18: when [all_tasks] of the repository succeeds, so does
    [patch_tasks], and its tasks are among those of [all_tasks], in the
    same order. *)
Theorem patch_tasks_within_all_tasks
    (self : Repo) (every : list GeneratedTask) :
  Repo.all_tasks self = Ok every ->
  exists patch,
    Repo.patch_tasks self = Ok patch /\ patch `sublist_of` every.
Proof.
  unfold Repo.all_tasks, Repo.patch_tasks, Repo.modified_workloads,
    Repo.flatten_tasks.
  destruct (Repo.all_workloads self) as [workloads|]; [|done].
  cbn [mbind result_bind].
  destruct (mapM Workload.all_tasks workloads) as [per|] eqn:Hper; [|done].
  cbn [mbind result_bind]. intros [= <-].
  destruct (mapM_filter_sublist _ is_modified _ _ Hper)
    as (part & -> & Hsub).
  by exists (mjoin part).
Qed.

Lemma patch_tasks_within_all_tasks_witness :
  exists patch,
    Repo.patch_tasks
      {| lister :=
           {| all_workload_files :=
                ["/genny/src/workloads/A.yml"; "/genny/src/workloads/B.yml"];
              modified_workload_files :=
                Ok {[ "/genny/src/workloads/B.yml" ]} |};
         reader :=
           {[ "/genny/src/workloads/A.yml" := Document (YMap []);
              "/genny/src/workloads/B.yml" := Document (YMap []) ]};
         repo_workspace_root := "/ws" |} = Ok patch
    /\ patch `sublist_of`
         [ {| name := "a"; mongodb_setup := YNull;
              workload :=
                {| file_path := "/genny/src/workloads/A.yml";
                   is_modified := false; requires := YNull;
                   setups := YNull |} |};
           {| name := "b"; mongodb_setup := YNull;
              workload :=
                {| file_path := "/genny/src/workloads/B.yml";
                   is_modified := true; requires := YNull;
                   setups := YNull |} |} ].
Proof.
  apply patch_tasks_within_all_tasks. vm_compute. reflexivity.
Defined.

(** X19: when both succeed, the tasks of [variant_tasks] of the repository
    are among those of [all_tasks], in the same order. *)
Theorem variant_tasks_within_all_tasks
    (self : Repo) (build : CurrentBuildInfo)
    (every chosen : list GeneratedTask) :
  Repo.all_tasks self = Ok every ->
  Repo.variant_tasks self build = Ok chosen ->
  chosen `sublist_of` every.
Proof.
  unfold Repo.all_tasks, Repo.variant_tasks, Repo.flatten_tasks.
  destruct (Repo.all_workloads self) as [workloads|]; [|done].
  cbn [mbind result_bind].
  destruct (mapM Workload.all_tasks workloads) as [per|] eqn:Hper; [|done].
  destruct (mapM (fun candidate => Workload.variant_tasks candidate build)
              workloads) as [part|] eqn:Hpart; [|done].
  cbn [mbind result_bind]. intros [= <-] [= <-].
  eapply mapM_pointwise_sublist; [|exact Hper|exact Hpart].
  intros candidate a v Ha Hv. cbv beta in Hv.
  exact (variant_tasks_sublist candidate build a v Ha Hv).
Qed.

Lemma variant_tasks_within_all_tasks_witness :
  [ {| name := "b_x"; mongodb_setup := YStr "x";
       workload :=
         {| file_path := "/genny/src/workloads/B.yml"; is_modified := false;
            requires := YMap [("build_variant", YSeq [YStr "linux"])];
            setups := YSeq [YStr "x"] |} |} ]
  `sublist_of`
  [ {| name := "a"; mongodb_setup := YNull;
       workload :=
         {| file_path := "/genny/src/workloads/A.yml"; is_modified := false;
            requires := YNull; setups := YNull |} |};
    {| name := "b_x"; mongodb_setup := YStr "x";
       workload :=
         {| file_path := "/genny/src/workloads/B.yml"; is_modified := false;
            requires := YMap [("build_variant", YSeq [YStr "linux"])];
            setups := YSeq [YStr "x"] |} |} ].
Proof.
  apply (variant_tasks_within_all_tasks
    {| lister :=
         {| all_workload_files :=
              ["/genny/src/workloads/A.yml"; "/genny/src/workloads/B.yml"];
            modified_workload_files := Ok ∅ |};
       reader :=
         {[ "/genny/src/workloads/A.yml" := Document (YMap []);
            "/genny/src/workloads/B.yml" :=
              Document
                (YMap [("AutoRun",
                        YMap [("Requires",
                               YMap [("build_variant",
                                      YSeq [YStr "linux"])]);
                              ("PrepareEnvironmentWith",
                               YMap [("mongodb_setup",
                                      YSeq [YStr "x"])])])]) ]};
       repo_workspace_root := "/ws" |}
    {| conts := YMap [("build_variant", YStr "linux")] |});
    vm_compute; reflexivity.
Defined.

(** ** Operation selector and main *)

(** X20: in the patch and variant modes [create] reads [expansions.yml]
    under the workspace root: it raises the not-found error when the file
    is missing and [KeyError] when the mapping has no [build_variant];
    otherwise the operation has the mode asked for and carries that
    value. *)
Theorem create_patch_or_variant_reads_build_variant
    (mode_name : string) (fs : gmap string file)
    (genny_repo_root workspace_root : string) :
  mode_name = "patch_tasks" \/ mode_name = "variant_tasks" ->
  (fs !! os_path.join workspace_root "expansions.yml" = None ->
   CLIOperation.create mode_name fs genny_repo_root workspace_root
   = Raise (FileNotFound (os_path.join workspace_root "expansions.yml")))
  /\ (forall expansions,
        YamlReader.load fs workspace_root "expansions.yml"
        = Ok (YMap expansions) ->
        CLIOperation.create mode_name fs genny_repo_root workspace_root
        = match dict_get "build_variant" expansions with
          | None => Raise (KeyError "build_variant")
          | Some build_variant =>
              Ok {| mode := if String.eqb mode_name "patch_tasks"
                            then PATCH_TASKS else VARIANT_TASKS;
                    variant := build_variant;
                    genny_repo_root := genny_repo_root;
                    workspace_root := workspace_root |}
          end).
Proof.
  intros [-> | ->]; unfold CLIOperation.create.
  - change (String.eqb "patch_tasks" "all_tasks") with false.
    change (String.eqb "patch_tasks" "patch_tasks") with true.
    change (String.eqb "patch_tasks" "variant_tasks") with false.
    split.
    + intros Hmissing. by rewrite load_missing_path_raises.
    + intros expansions ->. cbn [mbind result_bind py_getitem].
      by destruct (dict_get "build_variant" expansions).
  - change (String.eqb "variant_tasks" "all_tasks") with false.
    change (String.eqb "variant_tasks" "patch_tasks") with false.
    change (String.eqb "variant_tasks" "variant_tasks") with true.
    split.
    + intros Hmissing. cbn [mbind result_bind].
      by rewrite load_missing_path_raises.
    + intros expansions ->. cbn [mbind result_bind py_getitem].
      by destruct (dict_get "build_variant" expansions).
Qed.

Lemma create_patch_or_variant_reads_build_variant_witness :
  CLIOperation.create "patch_tasks"
    {[ "/ws/expansions.yml" := Document (YMap [("distro", YStr "rhel")]) ]}
    "/genny" "/ws"
  = Raise (KeyError "build_variant").
Proof.
  refine (proj2 (create_patch_or_variant_reads_build_variant "patch_tasks"
                   {[ "/ws/expansions.yml" :=
                        Document (YMap [("distro", YStr "rhel")]) ]}
                   "/genny" "/ws" _)
            [("distro", YStr "rhel")] _); [by left | reflexivity].
Defined.

(** X21: without [expansions.yml] under the workspace root, [main] raises
    the not-found error in every mode, the all-tasks mode included, before
    any workload file is looked at. *)
Theorem main_needs_expansions
    (mode_name : string) (fs : gmap string file) (lister : WorkloadLister)
    (genny_repo_root workspace_root : string) :
  fs !! os_path.join workspace_root "expansions.yml" = None ->
  main_tasks mode_name fs lister genny_repo_root workspace_root
  = Raise (FileNotFound (os_path.join workspace_root "expansions.yml")).
Proof.
  intros Hmissing. unfold main_tasks, CurrentBuildInfo.init.
  by rewrite load_missing_path_raises.
Qed.

Lemma main_needs_expansions_witness :
  main_tasks "all_tasks"
    {[ "/genny/src/workloads/A.yml" := Document (YMap []) ]}
    {| all_workload_files := ["/genny/src/workloads/A.yml"];
       modified_workload_files := Ok ∅ |}
    "/genny" "/ws"
  = Raise (FileNotFound "/ws/expansions.yml").
Proof.
  apply (main_needs_expansions "all_tasks"
           {[ "/genny/src/workloads/A.yml" := Document (YMap []) ]}).
  reflexivity.
Defined.

(** X22: with [expansions.yml] in place, a mode name that is none of the
    three tokens makes [main] list the tasks of every workload, as the
    all-tasks mode does. *)
Theorem main_unrecognized_mode_lists_all_tasks
    (mode_name : string) (fs : gmap string file) (lister : WorkloadLister)
    (genny_repo_root workspace_root : string) (expansions : yaml) :
  mode_name <> "all_tasks" ->
  mode_name <> "patch_tasks" ->
  mode_name <> "variant_tasks" ->
  YamlReader.load fs workspace_root "expansions.yml" = Ok expansions ->
  main_tasks mode_name fs lister genny_repo_root workspace_root
  = Repo.all_tasks {| lister := lister; reader := fs;
                      repo_workspace_root := workspace_root |}
  /\ main_tasks "all_tasks" fs lister genny_repo_root workspace_root
     = Repo.all_tasks {| lister := lister; reader := fs;
                         repo_workspace_root := workspace_root |}.
Proof.
  intros Hall Hpatch Hvariant Hload.
  unfold main_tasks, CurrentBuildInfo.init, CLIOperation.create.
  rewrite Hload. apply String.eqb_neq in Hall, Hpatch, Hvariant.
  rewrite Hall, Hpatch, Hvariant. by split.
Qed.

(** The three listings differ here: [patch_tasks] is the task of A alone
    and [variant_tasks] is empty, the build variant being osx. *)
Lemma main_unrecognized_mode_lists_all_tasks_witness :
  main_tasks "everything"
    {[ "/ws/expansions.yml" :=
         Document (YMap [("build_variant", YStr "osx")]);
       "/genny/src/workloads/A.yml" := Document (YMap []);
       "/genny/src/workloads/B.yml" :=
         Document
           (YMap [("AutoRun",
                   YMap [("Requires",
                          YMap [("build_variant", YSeq [YStr "linux"])]);
                         ("PrepareEnvironmentWith",
                          YMap [("mongodb_setup", YSeq [YStr "x"])])])]) ]}
    {| all_workload_files :=
         ["/genny/src/workloads/A.yml"; "/genny/src/workloads/B.yml"];
       modified_workload_files := Ok {[ "/genny/src/workloads/A.yml" ]} |}
    "/genny" "/ws"
  = Ok [ {| name := "a"; mongodb_setup := YNull;
            workload :=
              {| file_path := "/genny/src/workloads/A.yml";
                 is_modified := true; requires := YNull;
                 setups := YNull |} |};
         {| name := "b_x"; mongodb_setup := YStr "x";
            workload :=
              {| file_path := "/genny/src/workloads/B.yml";
                 is_modified := false;
                 requires := YMap [("build_variant", YSeq [YStr "linux"])];
                 setups := YSeq [YStr "x"] |} |} ].
Proof.
  refine (eq_trans
            (proj1 (main_unrecognized_mode_lists_all_tasks "everything" _ _
                      "/genny" "/ws"
                      (YMap [("build_variant", YStr "osx")]) _ _ _ _))
            _); try discriminate; vm_compute; reflexivity.
Defined.

(** ** Config reader, sets of files *)

Lemma load_each_app fs workspace_root first second out :
  YamlReader.load_each fs workspace_root (first ++ second) out
  = YamlReader.load_each fs workspace_root first out
    ≫= YamlReader.load_each fs workspace_root second.
Proof.
  revert out. induction first as [|f first IH]; intros out; [done|].
  cbn [app YamlReader.load_each].
  destruct (YamlReader.load fs workspace_root f) as [doc|]; [|done].
  cbn [mbind result_bind]. apply IH.
Qed.

Lemma load_each_other_keys fs workspace_root to_loads out out' key :
  YamlReader.load_each fs workspace_root to_loads out = Ok out' ->
  (forall f, f ∈ to_loads -> load_set_key f <> key) ->
  out' !! key = out !! key.
Proof.
  revert out. induction to_loads as [|f to_loads IH]; intros out Hout Hkeys.
  - by injection Hout as <-.
  - cbn [YamlReader.load_each] in Hout.
    destruct (YamlReader.load fs workspace_root f) as [doc|]; [|done].
    cbn [mbind result_bind] in Hout.
    rewrite (IH _ Hout) by (intros g Hg; apply Hkeys; by right).
    apply lookup_insert_ne. apply Hkeys. left.
Qed.

(** X23: when every listed path that exists as given has a document under
    the workspace root, [load_set] succeeds, and its keys are the base
    names, up to [.yml], of the listed paths that exist; the paths that do
    not exist leave no trace. *)
Theorem load_set_keys_of_existing_files
    (fs : gmap string file) (workspace_root : string) (files : list string) :
  (forall f, f ∈ files -> is_Some (fs !! f) ->
     exists doc,
       fs !! os_path.join workspace_root f = Some (Document doc)) ->
  exists out,
    YamlReader.load_set fs workspace_root files = Ok out
    /\ forall key, is_Some (out !! key) <->
         exists f, f ∈ files /\ is_Some (fs !! f) /\ key = load_set_key f.
Proof. apply load_set_skips_missing. Qed.

Lemma load_set_keys_of_existing_files_witness :
  exists out,
    YamlReader.load_set
      {[ "/ws/expansions.yml" := Document (YMap []) ]}
      "/ws" ["/ws/expansions.yml"; "/ws/bootstrap.yml"] = Ok out
    /\ forall key, is_Some (out !! key) <->
         exists f, f ∈ ["/ws/expansions.yml"; "/ws/bootstrap.yml"]
                   /\ is_Some (({[ "/ws/expansions.yml" :=
                                     Document (YMap []) ]}
                                : gmap string file) !! f)
                   /\ key = load_set_key f.
Proof.
  apply (load_set_keys_of_existing_files
           {[ "/ws/expansions.yml" := Document (YMap []) ]} "/ws"
           ["/ws/expansions.yml"; "/ws/bootstrap.yml"]).
  intros f Hin [entry Hf].
  apply lookup_singleton_Some in Hf as [<- <-].
  exists (YMap []). reflexivity.
Defined.

(** X24: in the mapping [load_set] returns, a key holds the document of the
    last listed file that exists and has that base name: a later file
    replaces an earlier one of the same base name. *)
Theorem load_set_last_file_wins
    (fs : gmap string file) (workspace_root : string)
    (before after : list string) (f : string) (doc : yaml)
    (out : gmap string yaml) :
  YamlReader.load_set fs workspace_root (before ++ f :: after) = Ok out ->
  is_Some (fs !! f) ->
  fs !! os_path.join workspace_root f = Some (Document doc) ->
  (forall g, g ∈ after -> is_Some (fs !! g) ->
     load_set_key g <> load_set_key f) ->
  out !! load_set_key f = Some doc.
Proof.
  intros Hout Hexists Hdoc Hafter. unfold YamlReader.load_set in Hout.
  rewrite List.filter_app in Hout. cbn [List.filter] in Hout.
  replace (YamlReader.exists_ fs f) with true in Hout
    by (symmetry; by apply bool_decide_eq_true).
  rewrite load_each_app in Hout.
  destruct (YamlReader.load_each fs workspace_root
              (List.filter (YamlReader.exists_ fs) before) ∅)
    as [loaded|]; [|done].
  cbn [mbind result_bind YamlReader.load_each] in Hout.
  unfold YamlReader.load at 1 in Hout. rewrite Hdoc in Hout.
  cbn [mbind result_bind] in Hout.
  rewrite (load_each_other_keys _ _ _ _ _ _ Hout).
  - apply lookup_insert_eq.
  - intros g Hg. apply list_elem_of_In, filter_In in Hg as [Hin Hg].
    apply Hafter; [by apply list_elem_of_In|].
    by apply bool_decide_eq_true in Hg.
Qed.

Lemma load_set_last_file_wins_witness :
  exists out,
    YamlReader.load_set
      {[ "/ws/a/expansions.yml" := Document (YInt 1);
         "/ws/b/expansions.yml" := Document (YInt 2) ]}
      "/ws" ["/ws/a/expansions.yml"; "/ws/b/expansions.yml"] = Ok out
    /\ out !! load_set_key "/ws/b/expansions.yml" = Some (YInt 2).
Proof.
  destruct (YamlReader.load_set
              {[ "/ws/a/expansions.yml" := Document (YInt 1);
                 "/ws/b/expansions.yml" := Document (YInt 2) ]}
              "/ws" ["/ws/a/expansions.yml"; "/ws/b/expansions.yml"])
    as [out|e] eqn:Hout; [|vm_compute in Hout; discriminate Hout].
  exists out. split; [reflexivity|].
  apply (load_set_last_file_wins
           {[ "/ws/a/expansions.yml" := Document (YInt 1);
              "/ws/b/expansions.yml" := Document (YInt 2) ]}
           "/ws" ["/ws/a/expansions.yml"] [] "/ws/b/expansions.yml"
           (YInt 2) out Hout).
  - vm_compute. by eexists.
  - vm_compute. reflexivity.
  - intros g Hg. by apply elem_of_nil in Hg.
Defined.
